(** * Accident API: converters, in-memory store, pagination, statistics

    A shallow embedding of [model_accident.py] (the field converters) and of
    the [AccidentManager] class of [app.py], with the properties of the
    specification proved about it.

    Python values are modelled as the program has them:
    - [int] is [Z] (unbounded); [//] and [%] are [Z.div] and [Z.modulo],
      which floor like Python's;
    - [str] is [string], a character being a code point below 256 (the
      messages the program prints are kept as written, their accented
      letters in UTF-8; nothing depends on their characters);
    - [float] is an IEEE 754 binary64 number, [spec_float] at precision 53
      with the operations of [SpecFloat];
    - a raised exception is the [Raise] branch of [result];
    - the accident dictionaries are records, the list of them a [list];
    - [print] and the calls into scikit-learn are events of a trace;
    - scikit-learn itself is outside the program: its calls are parameters
      of the manager, each of which can raise, and a method that calls them
      gives how it ended together with the manager it leaves. Where a
      property needs a regression that computes, the least-squares line of
      the specification stands for it ([Sklearn]).

    The claims of the specification are about the converters and the
    manager; the further properties add the bodies of the routes
    [get_accidents], [get_accident] and [create_accident],
    [lire_fichier_csv] from the lines of the file, and the statements that
    [model_accident.py] runs when it is imported. Outside the embedding:
    the opening of the files, and what Flask and the schemas do around the
    routes. *)

From Stdlib Require Import ZArith List String Ascii Bool Lia QArith Qround.
From Stdlib Require Import Permutation.
From Stdlib Require DecimalString.
From Stdlib Require Import Floats.SpecFloat Floats.PrimFloat Floats.FloatOps.
Import ListNotations.

Local Open Scope string_scope.
Local Open Scope list_scope.
Local Open Scope Z_scope.

(** ** Exceptions *)

Module Py.

(** The built-in exceptions the modelled code can raise or catch. *)
Inductive exn : Type :=
| ValueError
| IndexError
| ZeroDivisionError
| OverflowError.

Inductive result (A : Type) : Type :=
| Ok (a : A)
| Raise (e : exn).

Arguments Ok {A} a.
Arguments Raise {A} e.

Definition bind {A B : Type} (r : result A) (k : A -> result B) : result B :=
  match r with
  | Ok a => k a
  | Raise e => Raise e
  end.

Definition returns {A : Type} (r : result A) : Prop :=
  exists a, r = Ok a.

(** ** Sequences: [len], indexing and slicing *)

Definition len {A : Type} (l : list A) : Z := Z.of_nat (List.length l).

(** [l[i]]: a negative index counts from the end; out of range raises
    [IndexError]. *)
Definition getitem {A : Type} (l : list A) (i : Z) : result A :=
  let j := if i <? 0 then i + len l else i in
  if j <? 0 then Raise IndexError
  else match nth_error l (Z.to_nat j) with
       | Some a => Ok a
       | None => Raise IndexError
       end.

(** A slice bound as [PySlice_AdjustIndices] adjusts it for step 1: a
    negative bound counts from the end, and the outcome is clamped to
    [0 .. len]. *)
Definition adjust_index (n i : Z) : Z :=
  if i <? 0 then Z.max (i + n) 0 else Z.min i n.

(** [l[start:stop]] *)
Definition slice {A : Type} (l : list A) (start stop : Z) : list A :=
  let lo := adjust_index (len l) start in
  let hi := adjust_index (len l) stop in
  firstn (Z.to_nat (hi - lo)) (skipn (Z.to_nat lo) l).

Definition str_len (s : string) : Z := Z.of_nat (String.length s).

(** [s[start:stop]] on a string *)
Definition str_slice (s : string) (start stop : Z) : string :=
  string_of_list_ascii (slice (list_ascii_of_string s) start stop).

(** [sum(...)] over integers *)
Definition sum (l : list Z) : Z := fold_left Z.add l 0.

(** ** [int(s, 10)] *)

Definition code (c : ascii) : Z := Z.of_N (N_of_ascii c).

(** White space that [int] skips around the literal: the ASCII white space
    of [Py_ISSPACE], and the two white-space code points between 128 and
    255 (NEL and the no-break space), which are turned into a space before
    the literal is read. *)
Definition is_space (c : ascii) : bool :=
  let n := code c in
  ((9 <=? n) && (n <=? 13)) || (n =? 32) || (n =? 133) || (n =? 160).

Definition digit_value (c : ascii) : option Z :=
  let n := code c in
  if (48 <=? n) && (n <=? 57) then Some (n - 48) else None.

Definition is_underscore (c : ascii) : bool := code c =? 95.

Fixpoint skip_spaces (cs : list ascii) : list ascii :=
  match cs with
  | c :: cs' => if is_space c then skip_spaces cs' else cs
  | [] => []
  end.

(** The digits of the literal, with single underscores allowed between two
    digits: the value read so far and what is left after the literal.
    [prev] says that the character just read was an underscore. *)
Fixpoint scan_digits (prev : bool) (acc : Z) (cs : list ascii)
  : option (Z * list ascii) :=
  match cs with
  | [] => if prev then None else Some (acc, [])
  | c :: cs' =>
      if is_underscore c then
        if prev then None else scan_digits true acc cs'
      else
        match digit_value c with
        | Some d => scan_digits false (10 * acc + d) cs'
        | None => if prev then None else Some (acc, cs)
        end
  end.

(** The literal after the sign: it starts with a digit. *)
Definition scan_literal (cs : list ascii) : option (Z * list ascii) :=
  match cs with
  | c :: _ =>
      match digit_value c with
      | Some _ => scan_digits false 0 cs
      | None => None
      end
  | [] => None
  end.

Definition parse_int10 (cs : list ascii) : option Z :=
  let cs := skip_spaces cs in
  let '(neg, cs) :=
    match cs with
    | c :: cs' =>
        if code c =? 43 then (false, cs')
        else if code c =? 45 then (true, cs')
        else (false, cs)
    | [] => (false, cs)
    end in
  match scan_literal cs with
  | Some (v, rest) =>
      match skip_spaces rest with
      | [] => Some (if neg then - v else v)
      | _ :: _ => None
      end
  | None => None
  end.

(** [int(s, 10)]: [ValueError] when [s] is not a base-10 literal. *)
Definition int10 (s : string) : result Z :=
  match parse_int10 (list_ascii_of_string s) with
  | Some v => Ok v
  | None => Raise ValueError
  end.


(** ** Integer division *)

(** [a // b] and [a % b] *)
Definition floordiv (a b : Z) : result Z :=
  if b =? 0 then Raise ZeroDivisionError else Ok (a / b).

Definition modulo (a b : Z) : result Z :=
  if b =? 0 then Raise ZeroDivisionError else Ok (a mod b).

(** ** [float]: binary64 *)

Definition float : Type := spec_float.

Definition prec : Z := 53.
Definition emax : Z := 1024.

(** The binary64 number nearest to [a / b] (ties to even), for [b <> 0];
    an infinity when the quotient is beyond the largest float. The two
    integers are handed to IEEE division as exact, unnormalised
    significands, so the quotient is rounded once. *)
Definition nearest_float (a b : Z) : float :=
  match a, b with
  | Z0, _ => S754_zero (b <? 0)
  | _, Z0 => S754_nan
  | _, _ =>
      SFdiv prec emax (S754_finite (a <? 0) (Z.to_pos (Z.abs a)) 0)
                      (S754_finite (b <? 0) (Z.to_pos (Z.abs b)) 0)
  end.

(** [a / b] on two integers: correctly rounded; [ZeroDivisionError] for
    [b = 0], [OverflowError] when the result is too large for a float. *)
Definition truediv (a b : Z) : result float :=
  if b =? 0 then Raise ZeroDivisionError
  else match nearest_float a b with
       | S754_infinity _ => Raise OverflowError
       | q => Ok q
       end.

(** [n / d] rounded to the nearest integer, ties to even ([0 <= n], [0 < d]). *)
Definition div_half_even (n d : Z) : Z :=
  let q := n / d in
  match (2 * (n mod d)) ?= d with
  | Lt => q
  | Gt => q + 1
  | Eq => if Z.even q then q else q + 1
  end.

(** [round(x, ndigits)] on a float: the exact value of [x] is rounded to
    [ndigits] decimals (ties to even) and the decimal is read back as the
    nearest float. Infinities, NaN and zeros round to themselves. *)
Definition round (x : float) (ndigits : Z) : result float :=
  match x with
  | S754_finite s m e =>
      if ndigits >? 323 then Ok x
      else if ndigits <? -308 then Ok (S754_zero s)
      else
        let up := 10 ^ Z.max ndigits 0 in
        let down := 10 ^ Z.max (- ndigits) 0 in
        let n := div_half_even (Z.pos m * 2 ^ Z.max e 0 * up)
                               (2 ^ Z.max (- e) 0 * down) in
        if n =? 0 then Ok (S754_zero s)
        else match nearest_float ((if s then - n else n) * down) up with
             | S754_infinity _ => Raise OverflowError
             | r => Ok r
             end
  | _ => Ok x
  end.

(** A number that is an [int] or a [float]. *)
Inductive number : Type :=
| Int (z : Z)
| Float (f : float).

End Py.

Import Py.

Declare Scope py_scope.
Notation "x <- c ;; k" := (Py.bind c (fun x => k))
  (at level 61, c at next level, right associativity) : py_scope.
Local Open Scope py_scope.

(** ** model_accident.py: the field converters *)

Definition convert_grav (val : string) : Z :=
  if String.eqb val "1" then 1
  else if String.eqb val "2" then 100
  else if String.eqb val "3" then 10
  else if String.eqb val "4" then 5
  else -1.

Definition convert_annee (val : string) : result Z :=
  if negb (str_len val =? 4) then Ok (-1)
  else int10 val.


(** ** app.py: the accident manager *)

(** An accident dictionary [{'id': .., 'annee': .., 'gravite': ..}]. *)
Record Accident : Type := mkAccident {
  id : Z;
  annee : Z;
  gravite : Z
}.

(** What [get_all_accidents] returns. *)
Record Page : Type := mkPage {
  items : list Accident;
  total : Z;
  pages : Z;
  page : Z
}.

(** What [get_stats] returns. *)
Record Stats : Type := mkStats {
  total_accidents : Z;
  annee_moyenne : number;
  gravite_moyenne : number
}.

Section Manager.

(** scikit-learn and numpy are outside the program: a [LinearRegression]
    object, fitted or not, numpy's [float64], and the calls the program
    makes into them. Each call can raise: [fit] and [predict] convert what
    they are given and check the object they are called on. *)
Variable Regression : Type.
Variable float64 : Type.
(** [LinearRegression()]: a new object, not fitted. *)
Variable LinearRegression : Regression.
(** [m.fit(x_annee, y_gravite)] on the columns of years and severities.
    The call changes the object [m] in place: the first component is the
    object as the call leaves it, the second how the call ended. *)
Variable fit : Regression -> list Z -> list Z -> Regression * result unit.
(** [m.predict([[annee]])[0]] *)
Variable predict : Regression -> Z -> result float64.
(** [round(prediction, ndigits)] on a numpy [float64]. *)
Variable round64 : float64 -> Z -> result float64.

(** What the program does besides computing: lines printed, and calls
    into scikit-learn. *)
Inductive event : Type :=
| Print (line : string)
| CallFit (x_annee y_gravite : list Z)
| CallPredict (annee : Z).

Record AccidentManager : Type := mkManager {
  accidents : list Accident;
  id_counter : Z;
  model : option Regression
}.

(** [AccidentManager()] *)
Definition init : AccidentManager :=
  {| accidents := []; id_counter := 1; model := None |}.

(** A method that changes the manager and can raise: how the call ended,
    the manager as the call leaves it (an exception undoes nothing), and
    the events of the call in their order. *)
Record Run (A : Type) : Type := mkRun {
  outcome : result A;
  state : AccidentManager;
  output : list event
}.

Arguments outcome {A} _.
Arguments state {A} _.
Arguments output {A} _.

(** The new object is stored in [self.model] before it is fitted, and
    [fit] changes that object: when [fit] raises, the exception goes to the
    caller, the last [print] is not reached and [self.model] keeps the
    object as the failed call left it. *)
Definition train_prediction_model (self : AccidentManager) : Run unit :=
  if len (accidents self) =? 0 then
    {| outcome := Ok tt;
       state := self;
       output := [Print "Pas de données pour entraîner le modèle"] |}
  else
    let x_annee := map annee (accidents self) in
    let y_gravite := map gravite (accidents self) in
    let fitted := fit LinearRegression x_annee y_gravite in
    let self := {| accidents := accidents self;
                   id_counter := id_counter self;
                   model := Some (fst fitted) |} in
    match snd fitted with
    | Ok _ =>
        {| outcome := Ok tt;
           state := self;
           output := [Print "Entraînement du modèle de prédiction...";
                      CallFit x_annee y_gravite;
                      Print "Modèle entraîné avec succès"] |}
    | Raise e =>
        {| outcome := Raise e;
           state := self;
           output := [Print "Entraînement du modèle de prédiction...";
                      CallFit x_annee y_gravite] |}
    end.

(** What [predict_gravite] returns: the error dictionary or the
    prediction dictionary. *)
Inductive Prediction : Type :=
| PredictionError (error : string)
| Predicted (annee : Z) (gravite_predite : float64).

(** The manager is not changed. With a model, whatever its state, [predict]
    is called on it; what [predict] or [round] raises goes to the caller. *)
Definition predict_gravite (self : AccidentManager) (annee : Z)
  : result Prediction * list event :=
  match model self with
  | None => (Ok (PredictionError "Le modèle n'a pas été entraîné"), [])
  | Some m =>
      (prediction <- predict m annee ;;
       gravite_predite <- round64 prediction 2 ;;
       Ok (Predicted annee gravite_predite),
       [CallPredict annee])
  end.

Definition add_accident (self : AccidentManager) (annee gravite : Z)
  : Accident * AccidentManager :=
  let accident := {| id := id_counter self; annee := annee; gravite := gravite |} in
  (accident,
   {| accidents := accidents self ++ [accident];
      id_counter := id_counter self + 1;
      model := model self |}).

Definition get_all_accidents (self : AccidentManager) (page per_page : Z)
  : result Page :=
  let start := (page - 1) * per_page in
  let end_ := start + per_page in
  let items := slice (accidents self) start end_ in
  q <- floordiv (len (accidents self)) per_page ;;
  r <- modulo (len (accidents self)) per_page ;;
  Ok {| items := items;
        total := len (accidents self);
        pages := q + (if r =? 0 then 0 else 1);
        page := page |}.

Definition get_accident_by_id (self : AccidentManager) (id_ : Z)
  : option Accident :=
  find (fun accident => id accident =? id_) (accidents self).

Definition get_stats (self : AccidentManager) : result Stats :=
  match accidents self with
  | [] => Ok {| total_accidents := 0;
                annee_moyenne := Int 0;
                gravite_moyenne := Int 0 |}
  | _ :: _ =>
      let annee_sum := sum (map annee (accidents self)) in
      let gravite_sum := sum (map gravite (accidents self)) in
      let count := len (accidents self) in
      am <- (if count =? 0 then Ok (Int 0)
             else q <- truediv annee_sum count ;;
                  r <- round q 2 ;; Ok (Float r)) ;;
      gm <- (if count =? 0 then Ok (Int 0)
             else q <- truediv gravite_sum count ;;
                  r <- round q 2 ;; Ok (Float r)) ;;
      Ok {| total_accidents := count;
            annee_moyenne := am;
            gravite_moyenne := gm |}
  end.

(** The body of the [try] in [load_data_from_csv], for one row [d]. The
    store is only changed by the last statement, which does not raise: an
    exception leaves it as it was. *)
Definition load_row (self : AccidentManager) (d : list string)
  : result AccidentManager :=
  d8 <- getitem d 8 ;;
  annee <- convert_annee (str_slice d8 1 (-1)) ;;
  d6 <- getitem d 6 ;;
  let gravite := convert_grav (str_slice d6 1 (-1)) in
  if (annee >? -1) && (gravite >? -1)
  then Ok (snd (add_accident self annee gravite))
  else Ok self.

(** One turn of the loop: [except (IndexError, ValueError): continue]. *)
Definition load_row_guarded (self : AccidentManager) (d : list string)
  : result AccidentManager :=
  match load_row self d with
  | Ok self' => Ok self'
  | Raise IndexError | Raise ValueError => Ok self
  | Raise e => Raise e
  end.

(** [for d in data_usagers: ...]: the manager when the loop ends, and how
    it ended; an exception the handler does not catch ends it at once. *)
Fixpoint load_rows (self : AccidentManager) (data_usagers : list (list string))
  : AccidentManager * result unit :=
  match data_usagers with
  | [] => (self, Ok tt)
  | d :: rest =>
      match load_row_guarded self d with
      | Ok self' => load_rows self' rest
      | Raise e => (self, Raise e)
      end
  end.

Definition str_of_int (n : Z) : string :=
  DecimalString.NilZero.string_of_int (Z.to_int n).

(** [load_data_from_csv], from the rows that [lire_fichier_csv] read. The
    training is its last statement, outside the [try]: what it raises goes
    to the caller of the load. *)
Definition load_data_from_csv (self : AccidentManager)
  (data_usagers : list (list string)) : Run unit :=
  let data_usagers := filter (fun d => len d >? 8) data_usagers in
  let loaded := load_rows self data_usagers in
  match snd loaded with
  | Raise e =>
      {| outcome := Raise e;
         state := fst loaded;
         output := [Print "Chargement des données depuis les fichiers CSV..."] |}
  | Ok _ =>
      let trained := train_prediction_model (fst loaded) in
      {| outcome := outcome trained;
         state := state trained;
         output :=
           ([Print "Chargement des données depuis les fichiers CSV...";
             Print ("Données chargées : "
                    ++ str_of_int (len (accidents (fst loaded)))
                    ++ " accidents")%string]
            ++ output trained)%list |}
  end.

End Manager.

Arguments accidents {Regression} _.
Arguments id_counter {Regression} _.
Arguments model {Regression} _.
Arguments init {Regression}.
Arguments add_accident {Regression} self annee gravite.
Arguments get_all_accidents {Regression} self page per_page.
Arguments get_accident_by_id {Regression} self id_.
Arguments get_stats {Regression} self.
Arguments load_row {Regression} self d.
Arguments load_row_guarded {Regression} self d.
Arguments load_rows {Regression} self data_usagers.
Arguments train_prediction_model {Regression} LinearRegression fit self.
Arguments predict_gravite {Regression float64} predict round64 self annee.
Arguments load_data_from_csv {Regression} LinearRegression fit self data_usagers.
Arguments Run Regression A : clear implicits.
Arguments mkRun {Regression A} outcome state output.
Arguments outcome {Regression A} _.
Arguments state {Regression A} _.
Arguments output {Regression A} _.
Arguments PredictionError {float64} error.
Arguments Predicted {float64} annee gravite_predite.

(** ** model_accident.py: reading the file, and the statements of the module *)

(** White space as [str.strip] knows it, among the code points below 256. *)
Definition is_whitespace (c : ascii) : bool :=
  let n := code c in
  ((9 <=? n) && (n <=? 13)) || ((28 <=? n) && (n <=? 32))
  || (n =? 133) || (n =? 160).

Fixpoint lstrip_chars (cs : list ascii) : list ascii :=
  match cs with
  | c :: cs' => if is_whitespace c then lstrip_chars cs' else cs
  | [] => []
  end.

(** [s.strip()] *)
Definition strip_chars (cs : list ascii) : list ascii :=
  rev (lstrip_chars (rev (lstrip_chars cs))).

Definition strip (s : string) : string :=
  string_of_list_ascii (strip_chars (list_ascii_of_string s)).

(** [s.split(sep)] for a separator of one character: one field more than
    there are separators, an empty string giving one empty field. *)
Fixpoint split_chars (sep : ascii) (cs : list ascii) : list (list ascii) :=
  match cs with
  | [] => [[]]
  | c :: cs' =>
      if Ascii.eqb c sep then [] :: split_chars sep cs'
      else match split_chars sep cs' with
           | field :: fields => (c :: field) :: fields
           | [] => [[c]]
           end
  end.

Definition split (s : string) (sep : ascii) : list string :=
  map string_of_list_ascii (split_chars sep (list_ascii_of_string s)).

(** [lire_fichier_csv], from the lines that [readlines] returned. *)
Definition lire_fichier_csv (lines : list string) (skip_header : bool)
  : list (list string) :=
  let data_csv := map (fun line => split (strip line) ";"%char) lines in
  if skip_header then slice data_csv 1 (len data_csv) else data_csv.

(** The comprehension [[[convert_annee(d[8][1:-1]), convert_grav(d[6][1:-1])]
    for d in data_usagers]] of the module: no exception is caught. *)
Fixpoint convert_rows (data_usagers : list (list string)) : result (list (Z * Z)) :=
  match data_usagers with
  | [] => Ok []
  | d :: rest =>
      d8 <- getitem d 8 ;;
      annee <- convert_annee (str_slice d8 1 (-1)) ;;
      d6 <- getitem d 6 ;;
      let gravite := convert_grav (str_slice d6 1 (-1)) in
      xy <- convert_rows rest ;;
      Ok ((annee, gravite) :: xy)
  end.

(** The statements that [model_accident.py] runs when it is imported, from
    the rows of the file: the columns [x_annee] and [y_gravite]. *)
Definition module_columns (data_usagers : list (list string))
  : result (list Z * list Z) :=
  let data_usagers := filter (fun d => len d >? 8) data_usagers in
  xy <- convert_rows data_usagers ;;
  let xy := filter (fun d => (fst d >? -1) && (snd d >? -1)) xy in
  Ok (map fst xy, map snd xy).

(** ** app.py: the routes *)

(** What a route gives: a body, or [abort(status, message)]. *)
Inductive response (A : Type) : Type :=
| Response (body : A)
| Abort (status : Z) (message : string).

Arguments Response {A} body.
Arguments Abort {A} status message.

(** [request.args.get(key, default, type=int)]: the default when the key is
    absent or when [int] refuses its value. *)
Definition args_get_int (raw : option string) (default : Z) : Z :=
  match raw with
  | None => default
  | Some v => match int10 v with
              | Ok n => n
              | Raise _ => default
              end
  end.

(** The dictionary of [get_accidents]: the keys [accidents], [total],
    [pages] and [current_page]. *)
Record AccidentList : Type := mkAccidentList {
  list_accidents : list Accident;
  list_total : Z;
  list_pages : Z;
  current_page : Z
}.

(** The ranges of [AccidentCreateSchema]. *)
Definition AccidentCreateSchema (annee gravite : Z) : Prop :=
  1900 <= annee <= 2100 /\ 1 <= gravite <= 100.

Section Routes.

Context {Regression : Type}.

(** [GET /api/accidents], from the values of [page] and [per_page] in the
    query string. *)
Definition get_accidents (accident_manager : AccidentManager Regression)
  (page_arg per_page_arg : option string) : result AccidentList :=
  accidents <- get_all_accidents accident_manager
                 (args_get_int page_arg 1) (args_get_int per_page_arg 100) ;;
  Ok {| list_accidents := items accidents;
        list_total := total accidents;
        list_pages := pages accidents;
        current_page := page accidents |}.

(** [GET /api/accidents/<int:id>] *)
Definition get_accident (accident_manager : AccidentManager Regression)
  (id_ : Z) : response Accident :=
  match get_accident_by_id accident_manager id_ with
  | Some accident => Response accident
  | None => Abort 404 "Accident non trouvé"
  end.

(** [POST /api/accidents], on data that the schema accepted. *)
Definition create_accident (accident_manager : AccidentManager Regression)
  (annee gravite : Z) : Accident * AccidentManager Regression :=
  add_accident accident_manager annee gravite.

End Routes.

(** * Specification-side definitions *)

(** What the specification's sentences speak of, written from its words, to
    be compared with what the program computes. *)

(** The value of a digit sequence, most significant digit first. *)
Definition decimal (ds : list Z) : Z :=
  fold_left (fun acc d => 10 * acc + d) ds 0.

(** The characters an integer literal is made of: white space, a sign, the
    digits and the underscore. *)
Definition literal_char (c : ascii) : bool :=
  is_space c || (code c =? 43) || (code c =? 45) || is_underscore c
  || match digit_value c with Some _ => true | None => false end.

(** The specification's reading of a page: the elements of [l] whose
    position [i] satisfies [lo <= i < hi], positions counted from 0. *)
Fixpoint number_from {A : Type} (k : Z) (l : list A) : list (Z * A) :=
  match l with
  | [] => []
  | x :: l' => (k, x) :: number_from (k + 1) l'
  end.

Definition window {A : Type} (l : list A) (lo hi : Z) : list A :=
  map snd (filter (fun p => (lo <=? fst p) && (fst p <? hi)) (number_from 0 l)).

(** [ceil(n / d)] on the rationals *)
Definition ceil_div (n d : Z) : Z := Qceiling (inject_Z n / inject_Z d).

(** [x] is a zero, or a finite float of magnitude at most [2 ^ k] whose
    exponent is not below that of the smallest float. *)
Definition at_most (k : Z) (x : float) : Prop :=
  match x with
  | S754_zero _ => True
  | S754_finite _ m e => -1074 <= e /\ Z.pos m * 2 ^ (e + 1074) <= 2 ^ (k + 1074)
  | _ => False
  end.

(** The specification's reading of a mean rounded to 2 decimals, on
    Python's numbers: the sum divided by the count, as a float, and
    [round(., 2)] of it. *)
Definition rounded_mean (values : list Z) : result float :=
  q <- truediv (sum values) (len values) ;;
  round q 2.

(** ** The regression of the specification *)

(** scikit-learn is not among the sources of the program. Section 4.4 of
    the specification says what its regression is to do: [train] "fits a
    simple linear least-squares model severity = a.year + b minimizing sum
    of squared residuals over all samples", [predict] "evaluates the fitted
    line at the given year and rounds the result to 2 decimal places". The
    definitions below follow these words on binary64 numbers, the numbers
    of numpy; they stand for the library wherever a property needs a
    regression that computes. *)

Module Sklearn.

(** Modelled from the spec: the model is Untrained ([None]) or Trained, the
    fitted line [severity = a * year + b] being the pair [(a, b)]. *)
Definition Regression : Type := option (float * float).

(** Modelled from the spec: a new regression is Untrained. *)
Definition LinearRegression : Regression := None.

(** Modelled from the spec: a year or a severity as a binary64 number,
    [float(n)]; an integer beyond the floats raises [OverflowError]. *)
Definition to_float (n : Z) : result float := truediv n 1.

(** Modelled from the spec: a column of integers as binary64 numbers. *)
Fixpoint to_floats (values : list Z) : result (list float) :=
  match values with
  | [] => Ok []
  | v :: rest =>
      f <- to_float v ;;
      fs <- to_floats rest ;;
      Ok (f :: fs)
  end.

(** Modelled from the spec: the sum of a column. *)
Definition total (values : list float) : float :=
  fold_left (SFadd prec emax) values (S754_zero false).

(** Modelled from the spec: the mean of a column. *)
Definition mean (values : list float) : float :=
  SFdiv prec emax (total values) (nearest_float (len values) 1).

(** Modelled from the spec: the least-squares line through the samples, by
    its closed form on the samples centred on their means:
    [a = sum (x - mx) (y - my) / sum (x - mx)^2] and [b = my - a * mx]; the
    slope is 0 when all the years are the same. *)
Definition line (x y : list float) : float * float :=
  let x_mean := mean x in
  let y_mean := mean y in
  let dx := map (fun v => SFsub prec emax v x_mean) x in
  let dy := map (fun v => SFsub prec emax v y_mean) y in
  let sxx := total (map (fun d => SFmul prec emax d d) dx) in
  let sxy := total (map (fun d => SFmul prec emax (fst d) (snd d)) (combine dx dy)) in
  let a := match sxx with
           | S754_zero _ => S754_zero false
           | _ => SFdiv prec emax sxy sxx
           end in
  (a, SFsub prec emax y_mean (SFmul prec emax a x_mean)).

(** Modelled from the spec: [train]. The samples are converted first; when
    a conversion raises, the model is left as it was. *)
Definition fit (m : Regression) (x y : list Z) : Regression * result unit :=
  match to_floats x with
  | Raise e => (m, Raise e)
  | Ok xs =>
      match to_floats y with
      | Raise e => (m, Raise e)
      | Ok ys => (Some (line xs ys), Ok tt)
      end
  end.

(** Modelled from the spec: [predict] "fails with a model not trained
    condition if state is Untrained" (scikit-learn's [NotFittedError] is a
    [ValueError]); "otherwise evaluates the fitted line at the given
    year". *)
Definition predict (m : Regression) (annee : Z) : result float :=
  match m with
  | None => Raise ValueError
  | Some (a, b) =>
      x <- to_float annee ;;
      Ok (SFadd prec emax (SFmul prec emax a x) b)
  end.

(** Modelled from the spec: "rounds the result to 2 decimal places", as
    [round] does on a float. *)
Definition round64 (x : float) (ndigits : Z) : result float := round x ndigits.

End Sklearn.

(** ** Drivers: sequences of calls *)

Section Drivers.

Context {Regression : Type}.

(** [add_accident] called once per pair of [inputs], in order: the
    accidents returned, in order, and the final store. *)
Fixpoint add_all (self : AccidentManager Regression) (inputs : list (Z * Z))
  : list Accident * AccidentManager Regression :=
  match inputs with
  | [] => ([], self)
  | (annee, gravite) :: rest =>
      let '(accident, self') := add_accident self annee gravite in
      let '(returned, self'') := add_all self' rest in
      (accident :: returned, self'')
  end.

(** [get_all_accidents] called for each page of [page_numbers]: the items,
    page after page. *)
Fixpoint collect_pages (self : AccidentManager Regression) (per_page : Z)
  (page_numbers : list Z) : result (list Accident) :=
  match page_numbers with
  | [] => Ok []
  | k :: rest =>
      p <- get_all_accidents self k per_page ;;
      r <- collect_pages self per_page rest ;;
      Ok (items p ++ r)
  end.

(** The whole listing: pages 1 to [pages], as the first page counts them. *)
Definition list_all (self : AccidentManager Regression) (per_page : Z)
  : result (list Accident) :=
  p <- get_all_accidents self 1 per_page ;;
  collect_pages self per_page (map Z.of_nat (seq 1 (Z.to_nat (pages p)))).

End Drivers.

(** ** Sample stores *)

(** A store of five accidents, entered one after the other. *)
Definition five_accidents : AccidentManager unit :=
  snd (add_all init [(2019, 1); (2020, 5); (2021, 10); (2022, 100); (2023, 1)]).

(** The same store holding a model: the line [(a, b)] of slope 10 through
    (2019, 0) stands for the fitted regression. *)
Definition five_accidents_line : AccidentManager (Z * Z) :=
  {| accidents := accidents five_accidents;
     id_counter := id_counter five_accidents;
     model := Some (10, -20190) |}.

(** The store of the specification's example: (2020, 1) and (2021, 5). *)
Definition two_accidents : AccidentManager unit :=
  snd (add_all init [(2020, 1); (2021, 5)]).

(** A store with an accident whose year is 2^1024, beyond every float. *)
Definition huge_year : AccidentManager unit :=
  snd (add_all init [(2 ^ 1024, 1)]).


(** The samples of the specification's example, on a line of slope 10. *)
Definition three_samples : AccidentManager Sklearn.Regression :=
  snd (add_all init [(2020, 10); (2021, 20); (2022, 30)]).

(** The store of one accident of year 2^1024, for the regression of the
    specification. *)
Definition beyond_floats : AccidentManager Sklearn.Regression :=
  snd (add_all init [(2 ^ 1024, 1)]).

(** ** Sample rows *)

(** A field between double quotes, as the file has them. *)
Definition quoted (field : string) : string :=
  String (ascii_of_nat 34) (field ++ String (ascii_of_nat 34) "")%string.

(** A row of nine fields with the severity code in field 6 and the year in
    field 8. *)
Definition usager_row (grav an : string) : list string :=
  ["202300000001"; "203 851 184"; "155 680 557"; quoted "A01"; quoted "1";
   quoted "1"; quoted grav; quoted "2"; quoted an].

(** ** For the further properties *)

(** The accidents of the store carry the ids 1, 2, ... in order, and the
    counter is the next one. *)
Definition numbered {Regression} (self : AccidentManager Regression) : Prop :=
  map id (accidents self) = map Z.of_nat (seq 1 (List.length (accidents self))) /\
  id_counter self = len (accidents self) + 1.

(** What a row contributes to the store: its year and severity when it has
    more than 8 fields, its year field is read, and neither value is
    negative. *)
Definition row_values (d : list string) : option (Z * Z) :=
  if len d >? 8 then
    match convert_annee (str_slice (nth 8 d "") 1 (-1)) with
    | Ok annee =>
        let gravite := convert_grav (str_slice (nth 6 d "") 1 (-1)) in
        if (annee >? -1) && (gravite >? -1) then Some (annee, gravite) else None
    | Raise _ => None
    end
  else None.

(** The rows of a file that contribute, in order. *)
Definition kept_values (data_usagers : list (list string)) : list (Z * Z) :=
  flat_map (fun d => match row_values d with Some v => [v] | None => [] end)
           data_usagers.

(** A row of more than 8 fields whose year field [int] refuses. *)
Definition unreadable_year (d : list string) : Prop :=
  8 < len d /\ convert_annee (str_slice (nth 8 d "") 1 (-1)) = Raise ValueError.

(** The application's stores: the fresh one, and what a load of any rows
    that returns, a creation with data in the ranges of
    [AccidentCreateSchema], and a training make of them. *)
Inductive reachable {Regression} (LinearRegression : Regression)
  (fit : Regression -> list Z -> list Z -> Regression * result unit)
  : AccidentManager Regression -> Prop :=
| reachable_init : reachable LinearRegression fit init
| reachable_load self data_usagers :
    reachable LinearRegression fit self ->
    outcome (load_data_from_csv LinearRegression fit self data_usagers) = Ok tt ->
    reachable LinearRegression fit
      (state (load_data_from_csv LinearRegression fit self data_usagers))
| reachable_create self annee gravite :
    reachable LinearRegression fit self ->
    AccidentCreateSchema annee gravite ->
    reachable LinearRegression fit (snd (create_accident self annee gravite))
| reachable_train self :
    reachable LinearRegression fit self ->
    reachable LinearRegression fit
      (state (train_prediction_model LinearRegression fit self)).

(** The fields of a row put together again, with the separator between
    them. *)
Fixpoint join (sep : ascii) (fields : list string) : string :=
  match fields with
  | [] => ""
  | [field] => field
  | field :: rest => (field ++ String sep (join sep rest))%string
  end.

(** How many times a character occurs in a string. *)
Fixpoint count_char (c : ascii) (s : string) : Z :=
  match s with
  | EmptyString => 0
  | String c' s' => (if Ascii.eqb c' c then 1 else 0) + count_char c s'
  end.

Fixpoint contains_char (c : ascii) (s : string) : bool :=
  match s with
  | EmptyString => false
  | String c' s' => Ascii.eqb c' c || contains_char c s'
  end.

(** * Properties *)

(** ** Characters of an integer literal *)

Lemma digit_value_bounds c d :
  digit_value c = Some d -> 0 <= d <= 9 /\ code c = d + 48.
Proof.
  unfold digit_value.
  destruct (_ && _) eqn:E; [|discriminate].
  intros [= <-]. apply andb_true_iff in E as [H1 H2]. lia.
Qed.

Lemma digit_not_space c d : digit_value c = Some d -> is_space c = false.
Proof.
  intros H. apply digit_value_bounds in H as [H1 H2].
  unfold is_space. rewrite H2.
  repeat (apply orb_false_iff; split); try apply andb_false_iff; lia.
Qed.

Lemma digit_not_underscore c d :
  digit_value c = Some d -> is_underscore c = false.
Proof.
  intros H. apply digit_value_bounds in H as [H1 H2].
  unfold is_underscore. lia.
Qed.

Lemma digit_not_sign c d :
  digit_value c = Some d -> (code c =? 43) = false /\ (code c =? 45) = false.
Proof.
  intros H. apply digit_value_bounds in H as [H1 H2]. lia.
Qed.

Lemma scan_digits_all_digits cs ds : forall acc,
  map digit_value cs = map Some ds ->
  scan_digits false acc cs = Some (fold_left (fun acc d => 10 * acc + d) ds acc, []).
Proof.
  revert ds. induction cs as [|c cs IH]; intros [|d ds] acc H; try discriminate.
  - reflexivity.
  - injection H as Hc Hcs. simpl.
    rewrite (digit_not_underscore _ _ Hc), Hc. apply IH, Hcs.
Qed.

(** [int] reads a non-empty string of decimal digits as its value. *)
Lemma int10_digits s ds :
  ds <> [] ->
  map digit_value (list_ascii_of_string s) = map Some ds ->
  int10 s = Ok (decimal ds).
Proof.
  intros Hne H. unfold int10, parse_int10.
  destruct (list_ascii_of_string s) as [|c cs] eqn:E.
  - destruct ds; [contradiction | discriminate].
  - destruct ds as [|d ds]; [discriminate|].
    pose proof H as H'. injection H' as Hc Hcs.
    simpl skip_spaces. rewrite (digit_not_space _ _ Hc).
    destruct (digit_not_sign _ _ Hc) as [-> ->].
    unfold scan_literal. rewrite Hc.
    rewrite (scan_digits_all_digits _ _ 0 H). reflexivity.
Qed.

(** ** The converters *)

Example int10_examples :
  int10 "2023" = Ok 2023 /\ int10 "0042" = Ok 42 /\ int10 "-123" = Ok (-123) /\
  int10 " 12 " = Ok 12 /\ int10 "1_23" = Ok 123 /\ int10 "+7" = Ok 7 /\
  int10 "abcd" = Raise ValueError /\ int10 "12.5" = Raise ValueError /\
  int10 "" = Raise ValueError /\ int10 "_123" = Raise ValueError /\
  int10 "1__2" = Raise ValueError /\ int10 "123_" = Raise ValueError /\
  int10 "- 12" = Raise ValueError /\ int10 "1 23" = Raise ValueError.
Proof. repeat split; reflexivity. Qed.

(** C1. [convert_grav] returns 1 for "1", 100 for "2", 10 for "3", 5 for
    "4", and -1 for every other string, the empty string included. *)
Theorem convert_grav_spec (val : string) :
  (val = "1" -> convert_grav val = 1) /\
  (val = "2" -> convert_grav val = 100) /\
  (val = "3" -> convert_grav val = 10) /\
  (val = "4" -> convert_grav val = 5) /\
  (val <> "1" -> val <> "2" -> val <> "3" -> val <> "4" ->
   convert_grav val = -1) /\
  convert_grav "" = -1.
Proof.
  unfold convert_grav.
  repeat split; try (intros ->; reflexivity).
  intros H1 H2 H3 H4.
  destruct (String.eqb_spec val "1"); [contradiction|].
  destruct (String.eqb_spec val "2"); [contradiction|].
  destruct (String.eqb_spec val "3"); [contradiction|].
  destruct (String.eqb_spec val "4"); [contradiction|].
  reflexivity.
Qed.

(** The values [convert_grav] can return. *)
Lemma convert_grav_range (val : string) :
  In (convert_grav val) [1; 100; 10; 5; -1].
Proof.
  unfold convert_grav.
  repeat (destruct (String.eqb val _); [simpl; tauto|]).
  simpl; tauto.
Qed.

(** C6. [convert_annee] returns -1 on every string whose length is not 4,
    2023 on "2023", and on every string of four decimal digits its
    base-10 value. *)
Theorem convert_annee_spec :
  (forall val, str_len val <> 4 -> convert_annee val = Ok (-1)) /\
  convert_annee "2023" = Ok 2023 /\
  (forall c1 c2 c3 c4 d1 d2 d3 d4,
     digit_value c1 = Some d1 -> digit_value c2 = Some d2 ->
     digit_value c3 = Some d3 -> digit_value c4 = Some d4 ->
     convert_annee (String c1 (String c2 (String c3 (String c4 ""))))
     = Ok (1000 * d1 + 100 * d2 + 10 * d3 + d4)).
Proof.
  split; [|split].
  - intros val H. unfold convert_annee.
    destruct (Z.eqb_spec (str_len val) 4); [contradiction | reflexivity].
  - reflexivity.
  - intros c1 c2 c3 c4 d1 d2 d3 d4 H1 H2 H3 H4.
    unfold convert_annee. change (str_len _ =? 4) with true. cbn [negb].
    rewrite (int10_digits _ [d1; d2; d3; d4]).
    + f_equal. unfold decimal. cbn [fold_left]. lia.
    + discriminate.
    + simpl. now rewrite H1, H2, H3, H4.
Qed.

(** The third part of [convert_annee_spec] at the digits of "1987", and the
    first at a five-character string. *)
Lemma convert_annee_spec_witness :
  convert_annee "1987" = Ok 1987 /\ convert_annee "20230" = Ok (-1).
Proof.
  destruct convert_annee_spec as (Hlen & _ & Hdigits). split.
  - exact (Hdigits "1"%char "9"%char "8"%char "7"%char 1 9 8 7
             eq_refl eq_refl eq_refl eq_refl).
  - apply Hlen. vm_compute. discriminate.
Defined.

(** ** Strings that [int] refuses *)

Lemma skip_spaces_split cs :
  exists pre, cs = pre ++ skip_spaces cs /\ Forall (fun c => literal_char c = true) pre.
Proof.
  induction cs as [|c cs (pre & E & F)]; simpl.
  - now exists [].
  - destruct (is_space c) eqn:S.
    + exists (c :: pre). split; [simpl; congruence|].
      constructor; [|assumption]. unfold literal_char. now rewrite S.
    + now exists [].
Qed.

Lemma skip_spaces_nil cs :
  skip_spaces cs = [] -> Forall (fun c => literal_char c = true) cs.
Proof.
  intros H. destruct (skip_spaces_split cs) as (pre & E & F).
  rewrite H, app_nil_r in E. now subst.
Qed.

Lemma scan_digits_split cs : forall prev acc v rest,
  scan_digits prev acc cs = Some (v, rest) ->
  exists mid, cs = mid ++ rest /\ Forall (fun c => literal_char c = true) mid.
Proof.
  induction cs as [|c cs IH]; intros prev acc v rest; simpl.
  - destruct prev; [discriminate|]. intros [= <- <-]. now exists [].
  - destruct (is_underscore c) eqn:U.
    + destruct prev; [discriminate|]. intros H.
      apply IH in H as (mid & -> & F). exists (c :: mid). split; [reflexivity|].
      constructor; [|assumption]. unfold literal_char. rewrite U.
      now rewrite !orb_true_r.
    + destruct (digit_value c) eqn:D.
      * intros H. apply IH in H as (mid & -> & F). exists (c :: mid).
        split; [reflexivity|]. constructor; [|assumption].
        unfold literal_char. rewrite D. now rewrite !orb_true_r.
      * destruct prev; [discriminate|]. intros [= <- <-]. now exists [].
Qed.

(** A string that [int] accepts holds literal characters only. *)
Lemma parse_int10_chars cs v :
  parse_int10 cs = Some v -> Forall (fun c => literal_char c = true) cs.
Proof.
  unfold parse_int10.
  destruct (skip_spaces_split cs) as (pre & E & Fpre).
  set (cs1 := skip_spaces cs) in *. clearbody cs1.
  intros H. rewrite E. apply Forall_app. split; [assumption|]. clear E Fpre pre.
  assert (Hsign : exists sg neg cs2,
    cs1 = sg ++ cs2 /\ Forall (fun c => literal_char c = true) sg /\
    match scan_literal cs2 with
    | Some (v0, rest) =>
        match skip_spaces rest with
        | [] => Some (if (neg : bool) then - v0 else v0)
        | _ :: _ => None
        end
    | None => None
    end = Some v).
  { destruct cs1 as [|c cs'].
    - now exists [], false, [].
    - destruct (code c =? 43) eqn:P.
      + exists [c], false, cs'. repeat split; [|assumption].
        constructor; [|constructor]. unfold literal_char. rewrite P.
        now rewrite orb_true_r.
      + destruct (code c =? 45) eqn:M.
        * exists [c], true, cs'. repeat split; [|assumption].
          constructor; [|constructor]. unfold literal_char. rewrite M.
          now rewrite !orb_true_r.
        * now exists [], false, (c :: cs'). }
  destruct Hsign as (sg & neg & cs2 & -> & Fsg & H2). clear H.
  apply Forall_app. split; [assumption|].
  unfold scan_literal in H2.
  destruct cs2 as [|c cs']; [discriminate|].
  destruct (digit_value c); [|discriminate].
  destruct (scan_digits false 0 (c :: cs')) as [[v0 rest]|] eqn:S; [|discriminate].
  apply scan_digits_split in S as (mid & -> & Fmid).
  apply Forall_app. split; [assumption|].
  apply skip_spaces_nil. now destruct (skip_spaces rest).
Qed.

(** [int] raises [ValueError] on a string that holds a character no
    literal has, a letter for instance. *)
Lemma int10_foreign_char s c :
  In c (list_ascii_of_string s) -> literal_char c = false ->
  int10 s = Raise ValueError.
Proof.
  intros Hin Hc. unfold int10.
  destruct (parse_int10 (list_ascii_of_string s)) as [v|] eqn:P; [|reflexivity].
  apply parse_int10_chars in P. rewrite Forall_forall in P.
  specialize (P c Hin). congruence.
Qed.

(** The only exception of [int] is [ValueError]. *)
Lemma int10_raises s e : int10 s = Raise e -> e = ValueError.
Proof.
  unfold int10. destruct (parse_int10 _); [discriminate|]. now intros [=].
Qed.

(** ** Slices *)

Lemma len_nonneg {A} (l : list A) : 0 <= len l.
Proof. unfold len. lia. Qed.

Lemma len_app {A} (l1 l2 : list A) : len (l1 ++ l2) = len l1 + len l2.
Proof. unfold len. rewrite length_app. lia. Qed.

Lemma window_inside {A} (l : list A) : forall k lo hi,
  lo <= k ->
  map snd (filter (fun p => (lo <=? fst p) && (fst p <? hi)) (number_from k l))
  = firstn (Z.to_nat (hi - k)) l.
Proof.
  induction l as [|x l IH]; intros k lo hi Hk; simpl.
  - now rewrite firstn_nil.
  - destruct (Z.leb_spec lo k); [|lia]. simpl.
    destruct (Z.ltb_spec k hi).
    + replace (Z.to_nat (hi - k)) with (S (Z.to_nat (hi - (k + 1)))) by lia.
      simpl. f_equal. apply IH. lia.
    + replace (Z.to_nat (hi - k)) with 0%nat by lia. simpl.
      rewrite IH by lia. now replace (Z.to_nat (hi - (k + 1))) with 0%nat by lia.
Qed.

Lemma window_from {A} (l : list A) : forall k lo hi,
  k <= lo ->
  map snd (filter (fun p => (lo <=? fst p) && (fst p <? hi)) (number_from k l))
  = firstn (Z.to_nat (hi - lo)) (skipn (Z.to_nat (lo - k)) l).
Proof.
  induction l as [|x l IH]; intros k lo hi Hk.
  - simpl. now rewrite skipn_nil, firstn_nil.
  - destruct (Z.eq_dec k lo) as [->|Hne].
    + rewrite window_inside by lia. now rewrite Z.sub_diag.
    + simpl. destruct (Z.leb_spec lo k); [lia|]. simpl.
      rewrite IH by lia.
      replace (Z.to_nat (lo - k)) with (S (Z.to_nat (lo - (k + 1)))) by lia.
      reflexivity.
Qed.

(** From a start that is not negative, Python's slice is the window. *)
Lemma slice_window {A} (l : list A) (lo hi : Z) :
  0 <= lo -> lo <= hi -> slice l lo hi = window l lo hi.
Proof.
  intros Hlo Hhi. unfold window. rewrite window_from by lia.
  unfold slice, adjust_index.
  destruct (Z.ltb_spec lo 0); [lia|]. destruct (Z.ltb_spec hi 0); [lia|].
  rewrite Z.sub_0_r. pose proof (len_nonneg l) as Hn. unfold len in *.
  destruct (Z.le_gt_cases (Z.of_nat (List.length l)) lo) as [Hout|Hin].
  - rewrite !(skipn_all2 l) by lia. now rewrite !firstn_nil.
  - rewrite (Z.min_l lo) by lia.
    destruct (Z.le_gt_cases hi (Z.of_nat (List.length l))).
    + now rewrite Z.min_l by lia.
    + rewrite Z.min_r by lia.
      rewrite !firstn_all2; [reflexivity | |]; rewrite length_skipn; lia.
Qed.

Lemma slice_beyond {A} (l : list A) (lo hi : Z) :
  len l <= lo -> slice l lo hi = [].
Proof.
  intros H. pose proof (len_nonneg l). unfold slice, adjust_index.
  destruct (Z.ltb_spec lo 0); [lia|].
  rewrite skipn_all2; [apply firstn_nil|]. unfold len in *. lia.
Qed.

Lemma number_from_positions {A} (l : list A) : forall b k x,
  In (k, x) (number_from b l) -> b <= k.
Proof.
  induction l as [|y l IH]; intros b k x; cbn [number_from In]; [tauto|].
  intros [[= <- _]|H]; [lia|]. apply IH in H. lia.
Qed.

(** Positions start at 0: a window may as well start there. *)
Lemma window_clip {A} (l : list A) (lo hi : Z) :
  window l lo hi = window l (Z.max lo 0) hi.
Proof.
  unfold window. f_equal. apply filter_ext_in. intros [k x] Hin.
  apply number_from_positions in Hin. cbn [fst].
  destruct (Z.leb_spec lo k), (Z.leb_spec (Z.max lo 0) k); try lia; reflexivity.
Qed.

(** With two negative bounds Python's slice is the window counted from
    the end. *)
Lemma slice_negative {A} (l : list A) (start stop : Z) :
  start < 0 -> stop < 0 ->
  slice l start stop = window l (len l + start) (len l + stop).
Proof.
  intros H1 H2. rewrite window_clip. unfold window.
  rewrite window_from by lia. unfold slice, adjust_index.
  destruct (Z.ltb_spec start 0); [|lia]. destruct (Z.ltb_spec stop 0); [|lia].
  rewrite Z.sub_0_r, (Z.add_comm start), (Z.add_comm stop).
  f_equal. lia.
Qed.

(** A window that ends at position 0 or before holds nothing. *)
Lemma window_before {A} (l : list A) (lo hi : Z) :
  hi <= 0 -> window l lo hi = [].
Proof.
  intros H. rewrite window_clip. unfold window. rewrite window_from by lia.
  now replace (Z.to_nat (hi - Z.max lo 0)) with 0%nat by lia.
Qed.

(** A window that starts before its end, inside the list, holds
    something. *)
Lemma window_not_empty {A} (l : list A) (lo hi : Z) :
  lo < hi -> 0 < hi -> lo < len l -> 0 < len l -> window l lo hi <> [].
Proof.
  intros H1 H2 H3 H4 E. apply (f_equal (@List.length A)) in E.
  rewrite window_clip in E. unfold window in E.
  rewrite window_from, length_firstn, length_skipn in E by lia.
  unfold len in H3, H4. change (@List.length A []) with 0%nat in E. lia.
Qed.

Lemma ceil_div_floor (n d : Z) :
  0 < d -> ceil_div n d = n / d + (if n mod d =? 0 then 0 else 1).
Proof.
  intros Hd. unfold ceil_div, Qceiling, Qfloor.
  destruct d as [|p|p]; try lia. cbn.
  rewrite Z.mul_1_r.
  destruct (Z.eqb_spec (n mod Z.pos p) 0) as [E|E].
  - rewrite Z_div_zero_opp_full by assumption. lia.
  - rewrite Z_div_nz_opp_full by (assumption || lia). lia.
Qed.

(** ** The store *)

Section Store.

Context {Regression : Type}.
Implicit Types self : AccidentManager Regression.

Lemma get_all_accidents_ok self pg per_page :
  per_page <> 0 ->
  get_all_accidents self pg per_page =
  Ok {| items := slice (accidents self) ((pg - 1) * per_page)
                       ((pg - 1) * per_page + per_page);
        total := len (accidents self);
        pages := len (accidents self) / per_page
                 + (if len (accidents self) mod per_page =? 0 then 0 else 1);
        page := pg |}.
Proof.
  intros H. unfold get_all_accidents, floordiv, modulo.
  destruct (Z.eqb_spec per_page 0); [contradiction | reflexivity].
Qed.

Lemma pages_cover (n d : Z) :
  0 < d -> n <= (n / d + (if n mod d =? 0 then 0 else 1)) * d.
Proof.
  intros Hd. pose proof (Z.div_mod n d ltac:(lia)) as E.
  pose proof (Z.mod_pos_bound n d Hd) as B.
  destruct (Z.eqb_spec (n mod d) 0); nia.
Qed.

(** C2, as the code has it. For every page number and [per_page] from 1,
    [get_all_accidents] returns, no error, and [pages] is
    [ceil(total / per_page)]. For a page number from 0, and for a negative
    one with [page * per_page <= - total], the items are the accidents at
    positions [(page-1)*per_page] to [page*per_page] (excluded) of the
    insertion order, as many as exist: none for page 0, for a page after
    the last one and for these negative pages. For the other negative
    pages the items are not these: they are counted from the end of the
    store, and there are some. *)
Theorem get_all_accidents_window self (pg per_page : Z) :
  1 <= per_page ->
  exists p,
    get_all_accidents self pg per_page = Ok p /\
    total p = len (accidents self) /\
    pages p = ceil_div (len (accidents self)) per_page /\
    page p = pg /\
    (0 <= pg \/ len (accidents self) + pg * per_page <= 0 ->
     items p = window (accidents self) ((pg - 1) * per_page) (pg * per_page)) /\
    (pg = 0 \/ pages p < pg \/ len (accidents self) + pg * per_page <= 0 ->
     items p = []) /\
    (pg < 0 -> 0 < len (accidents self) + pg * per_page ->
     items p <> [] /\
     items p <> window (accidents self) ((pg - 1) * per_page) (pg * per_page)).
Proof.
  intros Hpp. pose proof (len_nonneg (accidents self)) as Hn.
  eexists. split; [apply get_all_accidents_ok; lia|].
  cbn [items total pages page].
  assert (Hzero : slice (accidents self) ((0 - 1) * per_page)
                    ((0 - 1) * per_page + per_page) = []).
  { unfold slice, adjust_index.
    destruct (Z.ltb_spec ((0 - 1) * per_page) 0); [|lia].
    destruct (Z.ltb_spec ((0 - 1) * per_page + per_page) 0); [lia|].
    now replace (Z.to_nat _) with 0%nat by lia. }
  assert (Hneg : pg < 0 ->
            slice (accidents self) ((pg - 1) * per_page) ((pg - 1) * per_page + per_page)
            = window (accidents self) (len (accidents self) + (pg - 1) * per_page)
                (len (accidents self) + pg * per_page)).
  { intros H. rewrite slice_negative by nia. f_equal. lia. }
  split; [reflexivity|]. split; [symmetry; apply ceil_div_floor; lia|].
  split; [reflexivity|]. split; [|split].
  - intros H. destruct (Z.lt_trichotomy pg 0) as [Hlt|[->|Hgt]].
    + rewrite Hneg by assumption. rewrite !window_before by nia. reflexivity.
    + rewrite Hzero. now rewrite window_before by lia.
    + rewrite slice_window by nia. f_equal. lia.
  - intros [->|[Hlast|Hfar]].
    + exact Hzero.
    + apply slice_beyond.
      pose proof (pages_cover (len (accidents self)) per_page ltac:(lia)). nia.
    + destruct (Z.lt_trichotomy pg 0) as [Hlt|[->|Hgt]].
      * rewrite Hneg by assumption. apply window_before. lia.
      * exact Hzero.
      * nia.
  - intros Hlt Hnear. rewrite Hneg by assumption.
    rewrite (window_before _ ((pg - 1) * per_page)) by nia.
    assert (window (accidents self) (len (accidents self) + (pg - 1) * per_page)
              (len (accidents self) + pg * per_page) <> []) by (apply window_not_empty; nia).
    now split.
Qed.

(** C8. [per_page] is not checked: with [per_page = 0] the count of pages
    divides by zero, and [get_all_accidents] raises [ZeroDivisionError]
    instead of returning, whatever the store and the page. It raises
    nothing else, and for no other [per_page]. *)
Theorem get_all_accidents_per_page_zero self (pg : Z) :
  get_all_accidents self pg 0 = Raise ZeroDivisionError /\
  (forall p, get_all_accidents self pg 0 <> Ok p) /\
  (forall per_page e,
     get_all_accidents self pg per_page = Raise e ->
     per_page = 0 /\ e = ZeroDivisionError).
Proof.
  split; [reflexivity|]. split; [discriminate|].
  intros per_page e. destruct (Z.eq_dec per_page 0) as [->|Hnz].
  - now intros [= <-].
  - now rewrite get_all_accidents_ok.
Qed.

End Store.

(** C2 as stated fails on a negative page: page -1 of the five accidents,
    two per page, is not empty; Python's slice counts negative bounds from
    the end and returns the accidents of ids 2 and 3, where the positions
    from -4 to -2 hold nothing. *)
Lemma get_all_accidents_negative_page :
  get_all_accidents five_accidents (-1) 2 =
    Ok {| items := [ {| id := 2; annee := 2020; gravite := 5 |};
                     {| id := 3; annee := 2021; gravite := 10 |} ];
          total := 5; pages := 3; page := -1 |} /\
  window (accidents five_accidents) ((-1 - 1) * 2) (-1 * 2) = [] /\
  ~ (forall (self : AccidentManager unit) pg per_page, 1 <= per_page ->
       exists p, get_all_accidents self pg per_page = Ok p /\
         items p = window (accidents self) ((pg - 1) * per_page) (pg * per_page)).
Proof.
  split; [reflexivity|]. split; [reflexivity|].
  intros H. destruct (H five_accidents (-1) 2 ltac:(lia)) as (p & E & I).
  vm_compute in E. injection E as <-. vm_compute in I. discriminate.
Qed.

(** [get_all_accidents_window] at page 3 of the five accidents, two per
    page: the last accident alone, of three pages. *)
Lemma get_all_accidents_window_witness :
  exists p,
    get_all_accidents five_accidents 3 2 = Ok p /\
    total p = len (accidents five_accidents) /\
    pages p = ceil_div (len (accidents five_accidents)) 2 /\
    page p = 3 /\
    (0 <= 3 \/ len (accidents five_accidents) + 3 * 2 <= 0 ->
     items p = window (accidents five_accidents) ((3 - 1) * 2) (3 * 2)) /\
    (3 = 0 \/ pages p < 3 \/ len (accidents five_accidents) + 3 * 2 <= 0 ->
     items p = []) /\
    (3 < 0 -> 0 < len (accidents five_accidents) + 3 * 2 ->
     items p <> [] /\
     items p <> window (accidents five_accidents) ((3 - 1) * 2) (3 * 2)).
Proof.
  apply (get_all_accidents_window five_accidents 3 2); lia.
Defined.

Example get_all_accidents_examples :
  (exists p, get_all_accidents five_accidents 1 2 = Ok p /\
     map id (items p) = [1; 2] /\ pages p = 3) /\
  (exists p, get_all_accidents five_accidents 3 2 = Ok p /\
     map id (items p) = [5] /\ pages p = 3) /\
  (exists p, get_all_accidents five_accidents 4 2 = Ok p /\ items p = []) /\
  (exists p, get_all_accidents five_accidents 0 2 = Ok p /\ items p = []).
Proof. repeat split; eexists; repeat split; reflexivity. Qed.

(** ** Adding and listing *)

Section Appending.

Context {Regression : Type}.
Implicit Types self : AccidentManager Regression.

Lemma firstn_add {A} (a b : nat) : forall l : list A,
  firstn (a + b) l = firstn a l ++ firstn b (skipn a l).
Proof.
  induction a as [|a IH]; intros [|x l]; simpl; try reflexivity.
  - now rewrite firstn_nil.
  - now rewrite IH.
Qed.

(** A page with a start inside or after the list, by [firstn] and [skipn]. *)
Lemma slice_page {A} (l : list A) (k : nat) (per_page : Z) :
  1 <= per_page ->
  slice l (Z.of_nat k * per_page) (Z.of_nat k * per_page + per_page)
  = firstn (Z.to_nat per_page) (skipn (k * Z.to_nat per_page) l).
Proof.
  intros Hpp. rewrite slice_window by nia. unfold window.
  rewrite window_from by nia. f_equal; [lia|]. f_equal. nia.
Qed.

Lemma collect_pages_firstn self (per_page : Z) (k : nat) :
  1 <= per_page ->
  collect_pages self per_page (map Z.of_nat (seq 1 k))
  = Ok (firstn (k * Z.to_nat per_page) (accidents self)).
Proof.
  intros Hpp.
  enough (G : forall j,
    collect_pages self per_page (map Z.of_nat (seq (S j) k))
    = Ok (firstn (k * Z.to_nat per_page)
            (skipn (j * Z.to_nat per_page) (accidents self)))).
  { apply (G 0%nat). }
  induction k as [|k IH]; intros j; [reflexivity|].
  cbn [seq map collect_pages].
  rewrite get_all_accidents_ok by lia. cbn [bind items].
  rewrite IH. cbn [bind]. f_equal.
  replace (Z.of_nat (S j) - 1) with (Z.of_nat j) by lia.
  rewrite slice_page by lia.
  change (S k * Z.to_nat per_page)%nat
    with (Z.to_nat per_page + k * Z.to_nat per_page)%nat.
  rewrite firstn_add, skipn_skipn. reflexivity.
Qed.

(** Listing page after page, with any page size from 1, gives the whole
    store in its order. *)
Lemma list_all_accidents self (per_page : Z) :
  1 <= per_page -> list_all self per_page = Ok (accidents self).
Proof.
  intros Hpp. unfold list_all.
  rewrite get_all_accidents_ok by lia. cbn [bind pages].
  rewrite collect_pages_firstn by assumption. f_equal.
  apply firstn_all2.
  pose proof (pages_cover (len (accidents self)) per_page ltac:(lia)) as C.
  pose proof (len_nonneg (accidents self)).
  set (q := _ / _ + _) in *. unfold len in *. nia.
Qed.

Lemma add_all_from self (inputs : list (Z * Z)) :
  accidents (snd (add_all self inputs))
    = accidents self ++ fst (add_all self inputs) /\
  id_counter (snd (add_all self inputs)) = id_counter self + len inputs /\
  model (snd (add_all self inputs)) = model self /\
  map id (fst (add_all self inputs))
    = map (fun i => id_counter self + Z.of_nat i) (seq 0 (List.length inputs)) /\
  map (fun a => (annee a, gravite a)) (fst (add_all self inputs)) = inputs.
Proof.
  revert self. induction inputs as [|[a g] rest IH]; intros self.
  - cbn. rewrite app_nil_r. repeat split. unfold len. simpl. lia.
  - cbn [add_all]. unfold add_accident.
    set (self' := mkManager _ _ _ _).
    destruct (IH self') as (Hacc & Hid & Hmod & Hids & Hin).
    destruct (add_all self' rest) as [returned self''].
    cbn [fst snd] in *. subst self'. cbn [accidents id_counter model] in *.
    repeat split.
    + rewrite Hacc, <- app_assoc. reflexivity.
    + rewrite Hid. unfold len. change (List.length ((a, g) :: rest)) with (S (List.length rest)). lia.
    + assumption.
    + change (List.length ((a, g) :: rest)) with (S (List.length rest)).
      cbn [map seq id]. f_equal; [lia|].
      rewrite Hids, <- seq_shift, map_map. apply map_ext. intros i. lia.
    + cbn [map annee gravite]. now rewrite Hin.
Qed.

(** C3. Whatever the sequence of [add_accident] calls on a fresh store,
    the ids given are 1, 2, ..., each call appends the accident it returns
    with the year and severity it was given, and listing returns the
    accidents in the order they were added. *)
Theorem add_accident_sequence (inputs : list (Z * Z)) :
  let returned := fst (add_all (@init Regression) inputs) in
  let self := snd (add_all (@init Regression) inputs) in
  map id returned = map Z.of_nat (seq 1 (List.length inputs)) /\
  map (fun a => (annee a, gravite a)) returned = inputs /\
  accidents self = returned /\
  id_counter self = len inputs + 1 /\
  (forall annee gravite,
     add_accident self annee gravite =
     ({| id := id_counter self; annee := annee; gravite := gravite |},
      {| accidents := accidents self
                      ++ [{| id := id_counter self; annee := annee; gravite := gravite |}];
         id_counter := id_counter self + 1;
         model := model self |})) /\
  (forall per_page, 1 <= per_page -> list_all self per_page = Ok returned).
Proof.
  intros returned self.
  destruct (add_all_from init inputs) as (Hacc & Hid & _ & Hids & Hin).
  fold returned self in Hacc, Hid, Hids, Hin.
  cbn [init accidents id_counter app] in Hacc, Hid, Hids.
  repeat split; try assumption.
  - rewrite Hids, <- seq_shift, map_map. apply map_ext. intros i. lia.
  - lia.
  - intros per_page Hpp. rewrite <- Hacc. now apply list_all_accidents.
Qed.

End Appending.

Example add_accident_sequence_example :
  map id (accidents five_accidents) = [1; 2; 3; 4; 5] /\
  id_counter five_accidents = 6 /\
  list_all five_accidents 2 = Ok (accidents five_accidents).
Proof. repeat split; reflexivity. Qed.


(** ** The regression model: untrained and trained *)

Section Model.

Context {Regression float64 : Type}.
Variable LinearRegression : Regression.
Variable fit : Regression -> list Z -> list Z -> Regression * result unit.
Variable predict : Regression -> Z -> result float64.
Variable round64 : float64 -> Z -> result float64.
Implicit Types self : AccidentManager Regression.

(** C7. On a store without accidents [train_prediction_model] prints that
    there is no data and does nothing else: it returns, the manager is
    unchanged, so an absent model stays absent, and [fit] is not called. *)
Theorem train_without_data self :
  accidents self = [] ->
  train_prediction_model LinearRegression fit self
    = {| outcome := Ok tt;
         state := self;
         output := [Print "Pas de données pour entraîner le modèle"] |} /\
  model (state (train_prediction_model LinearRegression fit self)) = model self /\
  (forall x y,
     ~ In (CallFit x y) (output (train_prediction_model LinearRegression fit self))).
Proof.
  intros H. unfold train_prediction_model. rewrite H. cbn.
  repeat split. intros x y [E|[]]. discriminate.
Qed.

(** With accidents in the store, training calls [fit] on a new regression
    with the columns of years and severities, whatever model there was;
    the store keeps the object that [fit] leaves, and the training ends as
    [fit] does. *)
Lemma train_with_data self :
  accidents self <> [] ->
  model (state (train_prediction_model LinearRegression fit self))
    = Some (fst (fit LinearRegression (map annee (accidents self))
                                      (map gravite (accidents self)))) /\
  outcome (train_prediction_model LinearRegression fit self)
    = snd (fit LinearRegression (map annee (accidents self))
                                (map gravite (accidents self))) /\
  accidents (state (train_prediction_model LinearRegression fit self))
    = accidents self /\
  id_counter (state (train_prediction_model LinearRegression fit self))
    = id_counter self.
Proof.
  intros H. unfold train_prediction_model.
  destruct (accidents self) as [|a l] eqn:E; [contradiction|].
  unfold len.
  change (Z.of_nat (List.length (a :: l)) =? 0) with false. cbv iota.
  destruct (snd (fit _ _ _)) as [[]|e]; cbn; repeat split.
Qed.

(** Training changes neither the accidents nor the counter. *)
Lemma train_accidents self :
  accidents (state (train_prediction_model LinearRegression fit self))
    = accidents self /\
  id_counter (state (train_prediction_model LinearRegression fit self))
    = id_counter self.
Proof.
  unfold train_prediction_model. destruct (_ =? 0); [now split|].
  now destruct (snd (fit _ _ _)).
Qed.

(** The manager that a training leaves. *)
Lemma train_state self :
  state (train_prediction_model LinearRegression fit self)
  = if len (accidents self) =? 0 then self
    else {| accidents := accidents self;
            id_counter := id_counter self;
            model := Some (fst (fit LinearRegression
                                  (map annee (accidents self))
                                  (map gravite (accidents self)))) |}.
Proof.
  unfold train_prediction_model. destruct (_ =? 0); [reflexivity|].
  now destruct (snd (fit _ _ _)).
Qed.

(** A training ends as [fit] does, when there is something to fit. *)
Lemma train_outcome self :
  outcome (train_prediction_model LinearRegression fit self)
  = match accidents self with
    | [] => Ok tt
    | _ :: _ => snd (fit LinearRegression (map annee (accidents self))
                                          (map gravite (accidents self)))
    end.
Proof.
  unfold train_prediction_model.
  destruct (accidents self) as [|a l] eqn:E; [reflexivity|].
  unfold len. change (Z.of_nat (List.length (a :: l)) =? 0) with false. cbv iota.
  now destruct (snd (fit _ _ _)) as [[]|e].
Qed.

(** With a model in the store, [predict_gravite] is the call of [predict]
    on it, then the rounding. *)
Lemma predict_gravite_model self m (year : Z) :
  model self = Some m ->
  predict_gravite predict round64 self year
  = (prediction <- predict m year ;;
     gravite_predite <- round64 prediction 2 ;;
     Ok (Predicted year gravite_predite),
     [CallPredict year]).
Proof. unfold predict_gravite. now intros ->. Qed.

(** C4, as the code has it. While [self.model] is [None], [predict_gravite]
    returns the error dictionary and makes no call to [predict]: so it does
    on a fresh store and after any number of additions. With an object [m]
    in [self.model], [predict] is called on it once: when it returns and
    the rounding returns, the result is the year and
    [round(m.predict(year), 2)]; when it raises, the exception goes to the
    caller. A training on a store that is not empty leaves in [self.model]
    the object that [fit] was called on, whether [fit] returned or raised:
    after it the error dictionary is not returned any more. With the
    regression of the specification and a fitted line [(a, b)], the result
    is [a * year + b] on floats, rounded to 2 decimals by [round], for
    every year that is within the floats. *)
Theorem predict_gravite_spec self (year : Z) :
  (model self = None ->
   predict_gravite predict round64 self year
     = (Ok (PredictionError "Le modèle n'a pas été entraîné"), [])) /\
  (forall inputs,
   predict_gravite predict round64 (snd (add_all init inputs)) year
     = (Ok (PredictionError "Le modèle n'a pas été entraîné"), [])) /\
  (forall m prediction gravite_predite,
   model self = Some m ->
   predict m year = Ok prediction ->
   round64 prediction 2 = Ok gravite_predite ->
   predict_gravite predict round64 self year
     = (Ok (Predicted year gravite_predite), [CallPredict year])) /\
  (forall m e,
   model self = Some m ->
   predict m year = Raise e ->
   predict_gravite predict round64 self year = (Raise e, [CallPredict year])) /\
  (accidents self <> [] ->
   let fitted := fit LinearRegression (map annee (accidents self))
                                      (map gravite (accidents self)) in
   let trained := train_prediction_model LinearRegression fit self in
   outcome trained = snd fitted /\
   model (state trained) = Some (fst fitted) /\
   predict_gravite predict round64 (state trained) year
     = (prediction <- predict (fst fitted) year ;;
        gravite_predite <- round64 prediction 2 ;;
        Ok (Predicted year gravite_predite),
        [CallPredict year])) /\
  (forall (trained : AccidentManager Sklearn.Regression) a b,
   model trained = Some (Some (a, b)) ->
   predict_gravite Sklearn.predict Sklearn.round64 trained year
     = (x <- Sklearn.to_float year ;;
        gravite_predite <- round (SFadd prec emax (SFmul prec emax a x) b) 2 ;;
        Ok (Predicted year gravite_predite),
        [CallPredict year])).
Proof.
  split; [|split; [|split; [|split; [|split]]]].
  - unfold predict_gravite. now intros ->.
  - intros inputs. unfold predict_gravite.
    destruct (add_all_from (@init Regression) inputs) as (_ & _ & -> & _).
    reflexivity.
  - intros m prediction gravite_predite Hm Hp Hr.
    rewrite (predict_gravite_model _ _ _ Hm), Hp. cbn [bind]. now rewrite Hr.
  - intros m e Hm Hp. now rewrite (predict_gravite_model _ _ _ Hm), Hp.
  - intros H fitted trained.
    destruct (train_with_data self H) as (Hm & Ho & _).
    split; [exact Ho|]. split; [exact Hm|].
    exact (predict_gravite_model _ _ _ Hm).
  - intros trained a b Hm. unfold predict_gravite. rewrite Hm.
    cbn [Sklearn.predict]. now destruct (Sklearn.to_float year).
Qed.

End Model.

(** [train_without_data] on the fresh store, with the regression of the
    specification. *)
Lemma train_without_data_witness :
  train_prediction_model Sklearn.LinearRegression Sklearn.fit init
    = {| outcome := Ok tt;
         state := init;
         output := [Print "Pas de données pour entraîner le modèle"] |} /\
  model (state (train_prediction_model Sklearn.LinearRegression Sklearn.fit init))
    = model init /\
  (forall x y,
     ~ In (CallFit x y)
          (output (train_prediction_model Sklearn.LinearRegression Sklearn.fit init))).
Proof.
  apply (train_without_data Sklearn.LinearRegression Sklearn.fit init). reflexivity.
Defined.

(** C4 as stated fails, on the regression of the specification, in both
    halves. A training on the store that holds the year 2^1024 raises
    [OverflowError] in [fit] and leaves the new regression, not fitted, in
    [self.model]: no training has succeeded, and [predict_gravite] does
    not return the error dictionary, it calls [predict], which raises.
    And after the training on the three samples has succeeded,
    [predict_gravite] at the year 10^309, beyond the floats, raises
    [OverflowError]: no value is returned. *)
Lemma predict_gravite_raises :
  (let trained :=
     train_prediction_model Sklearn.LinearRegression Sklearn.fit beyond_floats in
   outcome trained = Raise OverflowError /\
   model (state trained) = Some Sklearn.LinearRegression /\
   predict_gravite Sklearn.predict Sklearn.round64 (state trained) 2023
     = (Raise ValueError, [CallPredict 2023])) /\
  (let trained :=
     train_prediction_model Sklearn.LinearRegression Sklearn.fit three_samples in
   outcome trained = Ok tt /\
   predict_gravite Sklearn.predict Sklearn.round64 (state trained) (10 ^ 309)
     = (Raise OverflowError, [CallPredict (10 ^ 309)])).
Proof.
  split; cbv zeta; repeat split; vm_compute; reflexivity.
Qed.

(** [predict_gravite_spec] on the three samples after their training, with
    the regression of the specification: the fitted line has slope 10,
    and its value at 2024 is 50. *)
Lemma predict_gravite_spec_witness :
  predict_gravite Sklearn.predict Sklearn.round64
    (state (train_prediction_model Sklearn.LinearRegression Sklearn.fit three_samples))
    2024
  = (Ok (Predicted 2024 (Prim2SF 50%float)), [CallPredict 2024]).
Proof.
  refine (proj1 (proj2 (proj2 (predict_gravite_spec
            Sklearn.LinearRegression Sklearn.fit Sklearn.predict Sklearn.round64
            (state (train_prediction_model Sklearn.LinearRegression Sklearn.fit
                      three_samples)) 2024)))
            (Some (Prim2SF 10%float, Prim2SF (-20190)%float))
            (Prim2SF 50%float) (Prim2SF 50%float) _ _ _);
    vm_compute; reflexivity.
Defined.

(** C9. With the regression of the specification, the training on the
    three samples (2020, 10), (2021, 20), (2022, 30) returns and fits the
    line of slope 10 and intercept -20190, which passes through the three
    samples; the prediction for 2023 is then 40, the float 40.0 exactly,
    which its rounding to 2 decimals leaves as it is. *)
Theorem three_samples_prediction :
  let trained :=
    train_prediction_model Sklearn.LinearRegression Sklearn.fit three_samples in
  let fitted := Some (Prim2SF 10%float, Prim2SF (-20190)%float) in
  map (fun a => (annee a, gravite a)) (accidents three_samples)
    = [(2020, 10); (2021, 20); (2022, 30)] /\
  outcome trained = Ok tt /\
  model (state trained) = Some fitted /\
  Forall (fun a => Sklearn.predict fitted (annee a) = Sklearn.to_float (gravite a))
         (accidents three_samples) /\
  Sklearn.predict fitted 2023 = Ok (Prim2SF 40%float) /\
  Sklearn.round64 (Prim2SF 40%float) 2 = Ok (Prim2SF 40%float) /\
  predict_gravite Sklearn.predict Sklearn.round64 (state trained) 2023
    = (Ok (Predicted 2023 (Prim2SF 40%float)), [CallPredict 2023]).
Proof.
  cbv zeta. repeat split; try (vm_compute; reflexivity).
  repeat constructor; vm_compute; reflexivity.
Qed.

(** ** Ingestion *)

Section Ingestion.

Context {Regression : Type}.
Variable LinearRegression : Regression.
Variable fit : Regression -> list Z -> list Z -> Regression * result unit.
Implicit Types self : AccidentManager Regression.

Lemma getitem_raises {A} (l : list A) i e : getitem l i = Raise e -> e = IndexError.
Proof.
  unfold getitem. destruct (_ <? 0); [now intros [=]|].
  destruct (nth_error _ _); [discriminate | now intros [=]].
Qed.

Lemma getitem_in_range {A} (l : list A) i x :
  0 <= i -> getitem l i = Ok x -> i < len l.
Proof.
  unfold getitem. intros Hi. destruct (Z.ltb_spec i 0); [lia|].
  destruct (Z.ltb_spec i 0); [lia|].
  destruct (nth_error l (Z.to_nat i)) eqn:E; [|discriminate]. intros _.
  assert (Z.to_nat i < List.length l)%nat by (apply nth_error_Some; congruence).
  unfold len. lia.
Qed.

Lemma convert_annee_raises val e : convert_annee val = Raise e -> e = ValueError.
Proof.
  unfold convert_annee. destruct (negb _); [discriminate | apply int10_raises].
Qed.

(** The body of the [try] raises nothing but the two exceptions the loop
    catches. *)
Lemma load_row_raises self d e :
  load_row self d = Raise e -> e = IndexError \/ e = ValueError.
Proof.
  unfold load_row.
  destruct (getitem d 8) as [d8|e8] eqn:E8; cbn [bind].
  2: { intros [= <-]. left. eapply getitem_raises, E8. }
  destruct (convert_annee _) as [y|ey] eqn:Ey; cbn [bind].
  2: { intros [= <-]. right. eapply convert_annee_raises, Ey. }
  destruct (getitem d 6) as [d6|e6] eqn:E6; cbn [bind].
  2: { intros [= <-]. left. eapply getitem_raises, E6. }
  destruct (_ && _); discriminate.
Qed.

Lemma load_row_guarded_returns self d : returns (load_row_guarded self d).
Proof.
  unfold load_row_guarded, returns.
  destruct (load_row self d) as [s|e] eqn:E; [now exists s|].
  destruct (load_row_raises _ _ _ E) as [-> | ->]; now exists self.
Qed.

(** The loop never raises, whatever the rows and the store. *)
Lemma load_rows_returns rows : forall self, snd (load_rows self rows) = Ok tt.
Proof.
  induction rows as [|d rows IH]; intros self; [reflexivity|].
  cbn [load_rows]. destruct (load_row_guarded_returns self d) as (s & ->).
  apply IH.
Qed.

Lemma load_rows_app rows1 rows2 : forall self,
  load_rows self (rows1 ++ rows2)
  = load_rows (fst (load_rows self rows1)) rows2.
Proof.
  induction rows1 as [|d rows1 IH]; intros self; [reflexivity|].
  cbn [app load_rows]. destruct (load_row_guarded_returns self d) as (s & ->).
  apply IH.
Qed.

(** The load is its loop, then the training on what the loop has stored. *)
Lemma load_data_from_csv_trains self (data_usagers : list (list string)) :
  let loaded := fst (load_rows self (filter (fun d => len d >? 8) data_usagers)) in
  let trained := train_prediction_model LinearRegression fit loaded in
  load_data_from_csv LinearRegression fit self data_usagers
  = {| outcome := outcome trained;
       state := state trained;
       output :=
         [Print "Chargement des données depuis les fichiers CSV...";
          Print ("Données chargées : " ++ str_of_int (len (accidents loaded))
                 ++ " accidents")%string]
         ++ output trained |}.
Proof.
  cbv zeta. unfold load_data_from_csv. now rewrite load_rows_returns.
Qed.

(** A row whose year field makes [convert_annee] raise changes nothing. *)
Lemma load_row_guarded_skips self d d8 :
  getitem d 8 = Ok d8 ->
  convert_annee (str_slice d8 1 (-1)) = Raise ValueError ->
  load_row_guarded self d = Ok self.
Proof.
  intros H8 Hy. unfold load_row_guarded, load_row.
  rewrite H8. cbn [bind]. rewrite Hy. reflexivity.
Qed.

(** C10. On a string of four characters that [int] does not read, one
    that holds a letter for instance, [convert_annee] raises [ValueError]
    instead of returning -1. The loop of [load_data_from_csv] catches it:
    the row is skipped, the store left as it was, and the load does what
    it does without the row. No row makes the loop raise: the load goes on
    to its training, and ends as the training does. *)
Theorem convert_annee_value_error :
  (forall val, str_len val = 4 -> (forall n, int10 val <> Ok n) ->
     convert_annee val = Raise ValueError) /\
  (forall val c, str_len val = 4 ->
     In c (list_ascii_of_string val) -> literal_char c = false ->
     convert_annee val = Raise ValueError) /\
  convert_annee "abcd" = Raise ValueError /\
  (forall self before d after d8,
     getitem d 8 = Ok d8 ->
     convert_annee (str_slice d8 1 (-1)) = Raise ValueError ->
     load_row_guarded self d = Ok self /\
     load_data_from_csv LinearRegression fit self (before ++ d :: after)
       = load_data_from_csv LinearRegression fit self (before ++ after)) /\
  (forall self data_usagers,
     snd (load_rows self data_usagers) = Ok tt /\
     let loaded := fst (load_rows self (filter (fun d => len d >? 8) data_usagers)) in
     outcome (load_data_from_csv LinearRegression fit self data_usagers)
       = outcome (train_prediction_model LinearRegression fit loaded) /\
     state (load_data_from_csv LinearRegression fit self data_usagers)
       = state (train_prediction_model LinearRegression fit loaded)).
Proof.
  repeat apply conj.
  - intros val H4 Hbad. unfold convert_annee. rewrite H4. cbn [Z.eqb Pos.eqb negb].
    destruct (int10 val) as [n|e] eqn:E; [now destruct (Hbad n)|].
    now rewrite (int10_raises _ _ E).
  - intros val c H4 Hin Hc. unfold convert_annee. rewrite H4.
    cbn [Z.eqb Pos.eqb negb]. eapply int10_foreign_char; eassumption.
  - reflexivity.
  - intros self before d after d8 H Hy. split.
    { eapply load_row_guarded_skips; eassumption. }
    unfold load_data_from_csv. rewrite !filter_app. cbn [filter].
    apply getitem_in_range in H as Hlen; [|lia].
    destruct (Z.gtb_spec (len d) 8); [|lia].
    rewrite !load_rows_app. cbn [load_rows].
    now rewrite (load_row_guarded_skips _ d d8 H Hy).
  - intros self data_usagers. split; [apply load_rows_returns|].
    cbv zeta. now rewrite load_data_from_csv_trains.
Qed.

End Ingestion.

(** Five rows: a good one, one whose year is not a number, one whose
    severity code is unknown, a short one, and a good one. The two good
    rows are stored and the model is fitted on them; the regression here
    is the pair of columns it was fitted on. *)
Example load_data_from_csv_example :
  load_data_from_csv ([], []) (fun _ x y => ((x, y), Ok tt)) init
    [usager_row "1" "1987"; usager_row "2" "abcd"; usager_row "9" "1990";
     ["202300000002"; quoted "4"]; usager_row "4" "2001"]
  = {| outcome := Ok tt;
       state := {| accidents := [ {| id := 1; annee := 1987; gravite := 1 |};
                                  {| id := 2; annee := 2001; gravite := 5 |} ];
                   id_counter := 3;
                   model := Some ([1987; 2001], [1; 5]) |};
       output := [Print "Chargement des données depuis les fichiers CSV...";
                  Print "Données chargées : 2 accidents";
                  Print "Entraînement du modèle de prédiction...";
                  CallFit [1987; 2001] [1; 5];
                  Print "Modèle entraîné avec succès"] |}.
Proof. reflexivity. Qed.

(** A load into the store that holds the year 2^1024, with the regression
    of the specification: the loop returns, the training raises in [fit],
    and the load raises with it, the new regression left in place. *)
Example load_data_from_csv_raises_example :
  let loaded :=
    load_data_from_csv Sklearn.LinearRegression Sklearn.fit beyond_floats
      [usager_row "1" "1987"] in
  outcome loaded = Raise OverflowError /\
  map annee (accidents (state loaded)) = [2 ^ 1024; 1987] /\
  model (state loaded) = Some Sklearn.LinearRegression /\
  output loaded
  = [Print "Chargement des données depuis les fichiers CSV...";
     Print "Données chargées : 2 accidents";
     Print "Entraînement du modèle de prédiction...";
     CallFit [2 ^ 1024; 1987] [1; 1]].
Proof. cbv zeta. repeat split; vm_compute; reflexivity. Qed.

(** [convert_annee_value_error] on a row whose year is "abcd", between
    two good rows. *)
Lemma convert_annee_value_error_witness :
  load_row_guarded (@init unit) (usager_row "2" "abcd") = Ok init /\
  load_data_from_csv tt (fun _ _ _ => (tt, Ok tt)) init
    ([usager_row "1" "1987"] ++ usager_row "2" "abcd" :: [usager_row "4" "2001"])
  = load_data_from_csv tt (fun _ _ _ => (tt, Ok tt)) init
      ([usager_row "1" "1987"] ++ [usager_row "4" "2001"]).
Proof.
  exact (proj1 (proj2 (proj2 (proj2
           (convert_annee_value_error tt (fun _ _ _ => (tt, Ok tt))))))
           init [usager_row "1" "1987"] (usager_row "2" "abcd")
           [usager_row "4" "2001"] (quoted "abcd") eq_refl eq_refl).
Defined.

(** ** Floats *)

(** Division of integers agrees with the hardware division of the machine
    floats, and rounds once: ties go to the even significand, beyond the
    largest float there is an error, below the smallest a zero. *)
Example truediv_examples :
  truediv 4041 2 = Ok (Prim2SF (4041 / 2)%float) /\
  truediv 107 40 = Ok (Prim2SF (107 / 40)%float) /\
  truediv 1 3 = Ok (Prim2SF (1 / 3)%float) /\
  truediv (-7) 2 = Ok (Prim2SF (-3.5)%float) /\
  truediv 0 (-5) = Ok (Prim2SF (-0)%float) /\
  truediv (2 ^ 53 + 1) 1 = Ok (Prim2SF 9007199254740992%float) /\
  truediv (2 ^ 53 + 3) 1 = Ok (Prim2SF 9007199254740996%float) /\
  truediv (10 ^ 400) (10 ^ 399) = Ok (Prim2SF 10%float) /\
  truediv 1 (10 ^ 400) = Ok (Prim2SF 0%float) /\
  truediv (10 ^ 400) 1 = Raise OverflowError /\
  truediv 1 0 = Raise ZeroDivisionError.
Proof. repeat split; vm_compute; reflexivity. Qed.

(** [round] as Python documents it: [round(2.675, 2)] is 2.67, the float
    2.675 being just under the decimal; [round(0.125, 2)] is 0.12 and
    [round(2.5, 0)] is 2.0, ties going to the even digit; the sign of a
    zero is kept. [nearest_float n d] is the float that the literal of the
    decimal [n / d] denotes. *)
Example round_examples :
  round (nearest_float 2675 1000) 2 = Ok (nearest_float 267 100) /\
  round (nearest_float 125 1000) 2 = Ok (nearest_float 12 100) /\
  round (nearest_float 25 10) 0 = Ok (Prim2SF 2%float) /\
  round (nearest_float 35 10) 0 = Ok (Prim2SF 4%float) /\
  round (nearest_float 12345678 10000) (-2) = Ok (Prim2SF 1200%float) /\
  round (nearest_float (-1) 1000) 2 = Ok (Prim2SF (-0)%float) /\
  round (Prim2SF 2020.5%float) 2 = Ok (Prim2SF 2020.5%float) /\
  round (Prim2SF infinity) 2 = Ok (Prim2SF infinity).
Proof. repeat split; vm_compute; reflexivity. Qed.

(** ** The range of floats *)

(** Bounds on what IEEE division returns, read off its definition: the
    binary digits of a significand, the right shifts of the rounding, and
    the exponent it ends with. *)

Lemma digits2_pos_bounds p :
  2 ^ (Z.pos (digits2_pos p) - 1) <= Z.pos p < 2 ^ Z.pos (digits2_pos p).
Proof.
  induction p as [p IH|p IH|]; cbn [digits2_pos].
  - rewrite Pos2Z.inj_succ.
    replace (Z.succ (Z.pos (digits2_pos p)) - 1) with (Z.succ (Z.pos (digits2_pos p) - 1)) by lia.
    rewrite !Z.pow_succ_r by lia. lia.
  - rewrite Pos2Z.inj_succ.
    replace (Z.succ (Z.pos (digits2_pos p)) - 1) with (Z.succ (Z.pos (digits2_pos p) - 1)) by lia.
    rewrite !Z.pow_succ_r by lia. lia.
  - cbn. lia.
Qed.

Lemma Zdigits2_bounds m :
  0 < m -> 2 ^ (Zdigits2 m - 1) <= m < 2 ^ Zdigits2 m.
Proof. destruct m; try lia. intros _. apply digits2_pos_bounds. Qed.

Lemma Zdigits2_nonneg m : 0 <= Zdigits2 m.
Proof. destruct m; cbn; lia. Qed.

Lemma shr_1_m mrs : 0 <= shr_m mrs -> shr_m (shr_1 mrs) = shr_m mrs / 2.
Proof.
  destruct mrs as [m r s]. cbn [shr_m]. intros H.
  destruct m as [|[p|p|]|p]; cbn [shr_1 shr_m]; try reflexivity; try lia.
  - apply Z.div_unique with 1; lia.
  - apply Z.div_unique with 0; lia.
Qed.

Lemma iter_shr_1_m p : forall mrs,
  0 <= shr_m mrs ->
  shr_m (iter_pos shr_1 p mrs) = shr_m mrs / 2 ^ Z.pos p.
Proof.
  assert (D : forall m a b, 0 <= a -> 0 <= b -> m / 2 ^ a / 2 ^ b = m / 2 ^ (a + b)).
  { intros m a b Ha Hb.
    pose proof (Z.pow_pos_nonneg 2 a ltac:(lia) Ha).
    pose proof (Z.pow_pos_nonneg 2 b ltac:(lia) Hb).
    rewrite Z.pow_add_r by assumption. rewrite Z.div_div by lia. reflexivity. }
  assert (N : forall m k, 0 <= m -> 0 <= m / 2 ^ Z.pos k).
  { intros m k Hm. apply Z.div_pos; [assumption|].
    apply Z.pow_pos_nonneg; lia. }
  induction p as [p IH|p IH|]; intros mrs H; cbn [iter_pos].
  - rewrite IH, IH, shr_1_m; try assumption.
    + change (shr_m mrs / 2) with (shr_m mrs / 2 ^ 1).
      rewrite !D by lia. f_equal. f_equal. lia.
    + rewrite shr_1_m by assumption. apply Z.div_pos; lia.
    + rewrite IH, shr_1_m; try assumption.
      * apply N. apply Z.div_pos; lia.
      * rewrite shr_1_m by assumption. apply Z.div_pos; lia.
  - rewrite IH, IH; try assumption.
    + rewrite D by lia. f_equal. f_equal. lia.
    + rewrite IH by assumption. now apply N.
  - now apply shr_1_m.
Qed.

Lemma fexp_eq x : fexp prec emax x = Z.max (x - 53) (-1074).
Proof. reflexivity. Qed.

Lemma shr_spec mrs e n :
  0 <= shr_m mrs ->
  snd (shr mrs e n) = e + Z.max n 0 /\
  shr_m (fst (shr mrs e n)) = shr_m mrs / 2 ^ Z.max n 0.
Proof.
  intros H. destruct n as [|p|p]; cbn [shr fst snd].
  - rewrite Z.max_id, Z.div_1_r. lia.
  - rewrite Z.max_l by lia. split; [reflexivity|]. now apply iter_shr_1_m.
  - rewrite Z.max_r by lia. rewrite Z.div_1_r. lia.
Qed.

Lemma shr_record_of_loc_m m l : shr_m (shr_record_of_loc m l) = m.
Proof. destruct l as [|[]]; reflexivity. Qed.

Lemma shr_fexp_spec m e l :
  0 <= m ->
  let e' := Z.max e (Z.max (Zdigits2 m + e - 53) (-1074)) in
  snd (shr_fexp prec emax m e l) = e' /\
  shr_m (fst (shr_fexp prec emax m e l)) = m / 2 ^ (e' - e).
Proof.
  intros H e'. unfold shr_fexp. rewrite fexp_eq.
  destruct (shr_spec (shr_record_of_loc m l) e
              (Z.max (Zdigits2 m + e - 53) (-1074) - e)) as [E M].
  { now rewrite shr_record_of_loc_m. }
  rewrite E, M, shr_record_of_loc_m. subst e'. split; [lia|]. f_equal. f_equal. lia.
Qed.

Lemma round_nearest_even_bounds m l :
  m <= round_nearest_even m l <= m + 1.
Proof.
  destruct l as [|[]]; cbn [round_nearest_even]; try lia.
  destruct (Z.even m); lia.
Qed.

(** Scaled magnitudes: [m * 2 ^ (e + 1074)] is the value [m * 2 ^ e] in
    units of the smallest float. *)
Lemma scaled_shift m e e' :
  0 <= m -> -1074 <= e -> e <= e' ->
  (m / 2 ^ (e' - e)) * 2 ^ (e' + 1074) <= m * 2 ^ (e + 1074).
Proof.
  intros Hm He Hle.
  replace (e' + 1074) with ((e' - e) + (e + 1074)) by lia.
  rewrite Z.pow_add_r by lia.
  pose proof (Z.pow_pos_nonneg 2 (e' - e) ltac:(lia) ltac:(lia)) as P1.
  pose proof (Z.pow_pos_nonneg 2 (e + 1074) ltac:(lia) ltac:(lia)) as P2.
  pose proof (Z.mul_div_le m (2 ^ (e' - e)) P1) as D.
  rewrite Z.mul_assoc. apply Z.mul_le_mono_nonneg_r; lia.
Qed.

Lemma digits_of_scaled m e k :
  0 < m -> -1074 <= e -> -1074 <= k ->
  m * 2 ^ (e + 1074) <= 2 ^ (k + 1074) ->
  Zdigits2 m + e <= k + 1.
Proof.
  intros Hm He Hk H.
  destruct (Zdigits2_bounds m Hm) as [L _].
  pose proof (Zdigits2_nonneg m) as Hd.
  assert (Hd1 : 1 <= Zdigits2 m) by (destruct m; cbn in *; lia).
  pose proof (Z.pow_pos_nonneg 2 (e + 1074) ltac:(lia) ltac:(lia)) as P.
  assert (2 ^ (Zdigits2 m - 1 + (e + 1074)) <= 2 ^ (k + 1074)) as Hpow.
  { rewrite Z.pow_add_r by lia.
    etransitivity; [|exact H]. apply Z.mul_le_mono_nonneg_r; lia. }
  apply Z.pow_le_mono_r_iff in Hpow; lia.
Qed.

Lemma binary_round_aux_at_most sx mx ex lx K :
  0 <= mx -> -1074 <= ex <= 0 -> 0 <= K <= 1022 ->
  mx * 2 ^ (ex + 1074) <= 2 ^ (K + 1074) ->
  at_most (K + 1) (binary_round_aux prec emax sx mx ex lx).
Proof.
  intros Hmx Hex HK Hval. unfold binary_round_aux.
  destruct (shr_fexp_spec mx ex lx Hmx) as [E1 M1].
  destruct (shr_fexp prec emax mx ex lx) as [mrs1 e1]. cbn [fst snd] in E1, M1.
  rewrite <- E1 in M1.
  set (m2 := round_nearest_even (shr_m mrs1) (loc_of_shr_record mrs1)).
  pose proof (round_nearest_even_bounds (shr_m mrs1) (loc_of_shr_record mrs1)) as B2.
  fold m2 in B2.
  assert (He1 : ex <= e1 <= Z.max 0 (K - 52)).
  { destruct (Z.eq_dec mx 0) as [->|Hnz]; [cbn in E1; lia|].
    pose proof (digits_of_scaled mx ex K ltac:(lia) ltac:(lia) ltac:(lia) Hval). lia. }
  assert (Hm1 : 0 <= shr_m mrs1).
  { rewrite M1. apply Z.div_pos; [lia|]. apply Z.pow_pos_nonneg; lia. }
  assert (V1 : shr_m mrs1 * 2 ^ (e1 + 1074) <= 2 ^ (K + 1074)).
  { rewrite M1. etransitivity; [|exact Hval]. apply scaled_shift; lia. }
  assert (V2 : m2 * 2 ^ (e1 + 1074) <= 2 ^ (K + 1 + 1074)).
  { replace (K + 1 + 1074) with (Z.succ (K + 1074)) by lia.
    rewrite Z.pow_succ_r by lia.
    assert (2 ^ (e1 + 1074) <= 2 ^ (K + 1074)) by (apply Z.pow_le_mono_r; lia).
    pose proof (Z.pow_pos_nonneg 2 (e1 + 1074) ltac:(lia) ltac:(lia)).
    nia. }
  destruct (shr_fexp_spec m2 e1 loc_Exact ltac:(lia)) as [E3 M3].
  destruct (shr_fexp prec emax m2 e1 loc_Exact) as [mrs3 e3].
  cbn [fst snd] in E3, M3. rewrite <- E3 in M3.
  assert (He3 : e1 <= e3 <= Z.max 0 (K - 51)).
  { destruct (Z.eq_dec m2 0) as [Hz|Hnz]; [rewrite Hz in E3; cbn in E3; lia|].
    pose proof (digits_of_scaled m2 e1 (K + 1) ltac:(lia) ltac:(lia) ltac:(lia) V2).
    lia. }
  assert (V3 : shr_m mrs3 * 2 ^ (e3 + 1074) <= 2 ^ (K + 1 + 1074)).
  { rewrite M3. etransitivity; [|exact V2]. apply scaled_shift; lia. }
  assert (Hm3 : 0 <= shr_m mrs3).
  { rewrite M3. apply Z.div_pos; [lia|]. apply Z.pow_pos_nonneg; lia. }
  destruct (shr_m mrs3) as [|m|m]; [exact I | | lia].
  change (emax - prec) with 971.
  destruct (Z.leb_spec e3 971); [|lia].
  cbn [at_most]. split; [lia | exact V3].
Qed.

Lemma SFdiv_core_binary_spec (a b : positive) K :
  0 <= K -> Z.pos a <= 2 ^ K * Z.pos b ->
  exists q e l,
    SFdiv_core_binary prec emax (Z.pos a) 0 (Z.pos b) 0 = (q, e, l) /\
    0 <= q /\ -1074 <= e <= 0 /\ q * 2 ^ (e + 1074) <= 2 ^ (K + 1074).
Proof.
  intros HK Hab. unfold SFdiv_core_binary.
  rewrite !Z.add_0_r, Z.sub_diag. rewrite fexp_eq.
  set (e := Z.min _ 0).
  assert (He : -1074 <= e <= 0) by (subst e; lia).
  set (m' := match 0 - e with Z.pos _ => _ | Z0 => _ | Z.neg _ => _ end).
  assert (Hm' : m' = Z.pos a * 2 ^ (- e)).
  { subst m'. destruct (0 - e) as [|p|p] eqn:E; try lia.
    - replace (- e) with 0 by lia. lia.
    - rewrite Z.shiftl_mul_pow2 by lia. do 2 f_equal. lia. }
  clearbody m' e.
  destruct (Z.div_eucl m' (Z.pos b)) as [q r] eqn:D.
  assert (Hq : q = m' / Z.pos b) by (unfold Z.div; now rewrite D).
  exists q, e, (new_location (Z.pos b) r). split; [reflexivity|].
  pose proof (Z.pow_pos_nonneg 2 (- e) ltac:(lia) ltac:(lia)) as P1.
  pose proof (Z.pow_pos_nonneg 2 (e + 1074) ltac:(lia) ltac:(lia)) as P2.
  pose proof (Z.pow_pos_nonneg 2 K ltac:(lia) ltac:(lia)) as P3.
  assert (Hq0 : 0 <= q) by (rewrite Hq; apply Z.div_pos; nia).
  repeat split; try lia.
  assert (Hq1 : q <= 2 ^ K * 2 ^ (- e)).
  { rewrite Hq. apply Z.div_le_upper_bound; [lia|]. rewrite Hm'. nia. }
  replace (K + 1074) with (K + (- e + (e + 1074))) by lia.
  rewrite (Z.pow_add_r 2 K), (Z.pow_add_r 2 (- e)) by lia. rewrite Z.mul_assoc.
  apply Z.mul_le_mono_nonneg_r; lia.
Qed.

Lemma nearest_float_at_most (a b K : Z) :
  b <> 0 -> 0 <= K <= 1022 -> Z.abs a <= 2 ^ K * Z.abs b ->
  at_most (K + 1) (nearest_float a b).
Proof.
  intros Hb HK Hab. unfold nearest_float.
  destruct a as [|a|a]; [exact I | |];
    (destruct b as [|b|b]; [contradiction | |]);
    cbn [Z.abs Z.to_pos SFdiv];
    (destruct (SFdiv_core_binary_spec a b K ltac:(lia) Hab)
       as (q & e & l & -> & Hq & He & Hval));
    apply binary_round_aux_at_most; assumption.
Qed.

(** A quotient of magnitude at most [2 ^ 1022] is within the floats. *)
Lemma truediv_returns (a b K : Z) :
  b <> 0 -> 0 <= K <= 1022 -> Z.abs a <= 2 ^ K * Z.abs b ->
  exists q, truediv a b = Ok q /\ at_most (K + 1) q.
Proof.
  intros Hb HK Hab. unfold truediv.
  destruct (Z.eqb_spec b 0); [contradiction|].
  pose proof (nearest_float_at_most a b K Hb HK Hab) as H.
  destruct (nearest_float a b); try contradiction; eexists; split;
    try reflexivity; assumption.
Qed.

Lemma div_half_even_bounds (n d : Z) :
  0 <= n -> 0 < d -> 0 <= div_half_even n d <= n / d + 1.
Proof.
  intros Hn Hd. unfold div_half_even.
  assert (0 <= n / d) by (apply Z.div_pos; lia).
  destruct (_ ?= _); [destruct (Z.even _)| |]; lia.
Qed.

(** [round(x, 2)] of a float of magnitude at most [2 ^ 1021] returns. *)
Lemma round_two_returns (x : float) (k : Z) :
  0 <= k <= 1021 -> at_most k x -> exists r, round x 2 = Ok r.
Proof.
  intros Hk Hx. destruct x as [s| | |s m e]; try contradiction.
  { now exists (S754_zero s). }
  destruct Hx as [He Hval]. unfold round.
  change (2 >? 323) with false. change (2 <? -308) with false.
  change (10 ^ Z.max 2 0) with 100. change (10 ^ Z.max (- (2)) 0) with 1.
  cbv iota. rewrite !Z.mul_1_r.
  set (N := Z.pos m * 2 ^ Z.max e 0 * 100).
  set (D := 2 ^ Z.max (- e) 0).
  assert (HD : 0 < D) by (apply Z.pow_pos_nonneg; lia).
  assert (HN : 0 <= N).
  { subst N. pose proof (Z.pow_pos_nonneg 2 (Z.max e 0) ltac:(lia) ltac:(lia)). nia. }
  assert (Hq : N / D <= 100 * 2 ^ k).
  { apply Z.div_le_upper_bound; [assumption|]. subst N D.
    pose proof (Z.pow_pos_nonneg 2 k ltac:(lia) ltac:(lia)) as Pk.
    assert (Hm : Z.pos m * 2 ^ Z.max e 0 <= 2 ^ k * 2 ^ Z.max (- e) 0).
    { destruct (Z.le_gt_cases 0 e) as [Hpos|Hneg].
      - rewrite (Z.max_l e) by lia. rewrite (Z.max_r (- e)) by lia.
        rewrite Z.pow_0_r, Z.mul_1_r.
        rewrite (Z.pow_add_r 2 e), (Z.pow_add_r 2 k) in Hval by lia.
        rewrite Z.mul_assoc in Hval.
        apply Z.mul_le_mono_pos_r in Hval; [assumption|].
        apply Z.pow_pos_nonneg; lia.
      - rewrite (Z.max_r e) by lia. rewrite (Z.max_l (- e)) by lia.
        rewrite Z.pow_0_r, Z.mul_1_r.
        replace (k + 1074) with (k + (- e) + (e + 1074)) in Hval by lia.
        rewrite (Z.pow_add_r 2 (k + - e)) in Hval by lia.
        apply Z.mul_le_mono_pos_r in Hval; [|apply Z.pow_pos_nonneg; lia].
        now rewrite Z.pow_add_r in Hval by lia. }
    nia. }
  pose proof (div_half_even_bounds N D HN HD) as Hn.
  set (n := div_half_even N D) in *. clearbody n.
  destruct (Z.eqb_spec n 0); [now eexists|].
  assert (Hbound : Z.abs (if s then - n else n) <= 2 ^ (k + 1) * Z.abs 100).
  { rewrite Z.pow_add_r by lia.
    pose proof (Z.pow_pos_nonneg 2 k ltac:(lia) ltac:(lia)).
    destruct s; cbn [Z.abs]; lia. }
  pose proof (nearest_float_at_most _ 100 (k + 1) ltac:(lia) ltac:(lia) Hbound) as H.
  destruct (nearest_float _ 100); try contradiction; now eexists.
Qed.

Lemma sum_from (l : list Z) : forall acc, fold_left Z.add l acc = acc + sum l.
Proof.
  unfold sum. induction l as [|x l IH]; intros acc; cbn [fold_left]; [lia|].
  rewrite IH, (IH (0 + x)). lia.
Qed.

Lemma sum_cons (x : Z) (l : list Z) : sum (x :: l) = x + sum l.
Proof. unfold sum at 1. cbn [fold_left]. rewrite sum_from. lia. Qed.

(** A sum of numbers of magnitude at most [B] is at most [B] times their
    count. *)
Lemma sum_abs_bound (B : Z) (l : list Z) :
  Forall (fun v => Z.abs v <= B) l -> Z.abs (sum l) <= B * len l.
Proof.
  induction 1 as [|x l Hx Hl IH].
  - cbn. lia.
  - rewrite sum_cons. unfold len in *.
    change (List.length (x :: l)) with (S (List.length l)). lia.
Qed.

(** ** Statistics *)

(** The mean of numbers of magnitude at most [2 ^ 1000] is within the
    floats: its computation returns. *)
Lemma rounded_mean_returns (values : list Z) :
  values <> [] -> Forall (fun v => Z.abs v <= 2 ^ 1000) values ->
  exists m, rounded_mean values = Ok m.
Proof.
  intros Hne Hall. unfold rounded_mean.
  pose proof (sum_abs_bound _ _ Hall) as Hsum.
  pose proof (len_nonneg values) as Hlen.
  assert (Hnz : len values <> 0).
  { destruct values; [contradiction|]. unfold len.
    change (List.length (z :: values)) with (S (List.length values)). lia. }
  destruct (truediv_returns (sum values) (len values) 1000 Hnz ltac:(lia))
    as (q & -> & Hq).
  { now rewrite (Z.abs_eq (len values)) by lia. }
  cbn [bind]. exact (round_two_returns q 1001 ltac:(lia) Hq).
Qed.

Section Statistics.

Context {Regression : Type}.
Implicit Types self : AccidentManager Regression.

Lemma len_cons_nonzero {A} (x : A) l : (len (x :: l) =? 0) = false.
Proof.
  unfold len. change (List.length (x :: l)) with (S (List.length l)).
  apply Z.eqb_neq. lia.
Qed.

Lemma len_map {A B} (f : A -> B) l : len (map f l) = len l.
Proof. unfold len. now rewrite length_map. Qed.

(** [get_stats] on a store that is not empty, as one computation. *)
Lemma get_stats_nonempty self :
  accidents self <> [] ->
  get_stats self =
  (am <- rounded_mean (map annee (accidents self)) ;;
   gm <- rounded_mean (map gravite (accidents self)) ;;
   Ok {| total_accidents := len (accidents self);
         annee_moyenne := Float am;
         gravite_moyenne := Float gm |}).
Proof.
  intros H. unfold get_stats, rounded_mean.
  destruct (accidents self) as [|a l]; [contradiction|].
  rewrite len_cons_nonzero, !len_map.
  destruct (truediv (sum (map annee (a :: l))) _) as [qa|]; [|reflexivity].
  cbn [bind]. destruct (round qa 2) as [ra|]; [|reflexivity].
  cbn [bind].
  destruct (truediv (sum (map gravite (a :: l))) _) as [qg|]; [|reflexivity].
  cbn [bind]. destruct (round qg 2) as [rg|]; reflexivity.
Qed.


End Statistics.



(** * Further properties of the program *)

(** ** The range of [convert_annee] *)

Lemma scan_digits_bound cs : forall prev acc v rest,
  0 <= acc ->
  scan_digits prev acc cs = Some (v, rest) ->
  0 <= v /\ v + 1 <= (acc + 1) * 10 ^ Z.of_nat (List.length cs).
Proof.
  induction cs as [|c cs IH]; intros prev acc v rest Hacc; cbn [scan_digits].
  - destruct prev; [discriminate|]. intros [= <- <-]. cbn. lia.
  - change (List.length (c :: cs)) with (S (List.length cs)).
    rewrite Nat2Z.inj_succ, Z.pow_succ_r by lia.
    pose proof (Z.pow_pos_nonneg 10 (Z.of_nat (List.length cs)) ltac:(lia) ltac:(lia)) as P.
    destruct (is_underscore c).
    + destruct prev; [discriminate|]. intros H.
      apply IH in H as [H0 H1]; [|assumption]. split; [assumption|]. nia.
    + destruct (digit_value c) as [d|] eqn:D.
      * apply digit_value_bounds in D as [Hd _]. intros H.
        apply IH in H as [H0 H1]; [|lia]. split; [assumption|]. nia.
      * destruct prev; [discriminate|]. intros [= <- <-]. split; [assumption|]. nia.
Qed.

Lemma skip_spaces_length cs : (List.length (skip_spaces cs) <= List.length cs)%nat.
Proof.
  induction cs as [|c cs IH]; cbn [skip_spaces]; [lia|].
  destruct (is_space c); cbn [List.length]; lia.
Qed.

(** An integer read from [n] characters is below [10 ^ n], and above
    [- 10 ^ (n - 1)], the sign taking a character. *)
Lemma parse_int10_bound cs v :
  parse_int10 cs = Some v ->
  - 10 ^ (Z.of_nat (List.length cs) - 1) < v < 10 ^ Z.of_nat (List.length cs).
Proof.
  unfold parse_int10. pose proof (skip_spaces_length cs) as Hlen.
  set (cs1 := skip_spaces cs) in *. clearbody cs1.
  assert (G : forall neg cs2,
    match scan_literal cs2 with
    | Some (v0, rest) =>
        match skip_spaces rest with
        | [] => Some (if (neg : bool) then - v0 else v0)
        | _ :: _ => None
        end
    | None => None
    end = Some v ->
    if neg then - 10 ^ Z.of_nat (List.length cs2) < v <= 0
    else 0 <= v < 10 ^ Z.of_nat (List.length cs2)).
  { intros neg cs2. unfold scan_literal.
    destruct cs2 as [|c cs']; [discriminate|].
    destruct (digit_value c); [|discriminate].
    destruct (scan_digits false 0 (c :: cs')) as [[v0 rest]|] eqn:S; [|discriminate].
    apply scan_digits_bound in S as [H0 H1]; [|lia].
    destruct (skip_spaces rest); [|discriminate]. intros [= <-].
    destruct neg; lia. }
  assert (M : forall a b : nat, (a <= b)%nat -> 10 ^ Z.of_nat a <= 10 ^ Z.of_nat b)
    by (intros; apply Z.pow_le_mono_r; lia).
  destruct cs1 as [|c cs']; [discriminate|].
  cbn [List.length] in Hlen.
  assert (Hpred : 10 ^ Z.of_nat (List.length cs')
                  <= 10 ^ (Z.of_nat (List.length cs) - 1))
    by (apply Z.pow_le_mono_r; lia).
  pose proof (M (List.length cs') (List.length cs) ltac:(lia)) as M1.
  pose proof (M (S (List.length cs')) (List.length cs) Hlen) as M2.
  assert (P2 : 0 < 10 ^ (Z.of_nat (List.length cs) - 1))
    by (apply Z.pow_pos_nonneg; lia).
  destruct (code c =? 43); [intros H; apply (G false cs') in H; lia|].
  destruct (code c =? 45); [intros H; apply (G true cs') in H; lia|].
  intros H. apply (G false (c :: cs')) in H.
  change (List.length (c :: cs')) with (S (List.length cs')) in H. lia.
Qed.

Lemma length_list_ascii_of_string s :
  List.length (list_ascii_of_string s) = String.length s.
Proof. induction s as [|c s IH]; cbn; congruence. Qed.

(** What [int] reads from four characters. *)
Lemma int10_four_characters (val : string) (n : Z) :
  str_len val = 4 -> int10 val = Ok n -> -999 <= n <= 9999.
Proof.
  intros H4. unfold int10.
  destruct (parse_int10 (list_ascii_of_string val)) as [v|] eqn:P; [|discriminate].
  intros [= <-]. apply parse_int10_bound in P.
  rewrite length_list_ascii_of_string in P. unfold str_len in H4.
  rewrite H4 in P. change (10 ^ 4) with 10000 in P.
  change (10 ^ (4 - 1)) with 1000 in P. lia.
Qed.

(** X1. Whatever the string, a year that [convert_annee] returns lies
    between -999 and 9999: the test on the length bounds what [int] can
    read, and nothing checks that the year is a plausible one. *)
Theorem convert_annee_range (val : string) (n : Z) :
  convert_annee val = Ok n -> -999 <= n <= 9999.
Proof.
  unfold convert_annee. destruct (Z.eqb_spec (str_len val) 4) as [H4|H4]; cbn [negb].
  - now apply int10_four_characters.
  - intros [= <-]. lia.
Qed.

Lemma convert_annee_range_witness : -999 <= 2023 <= 9999.
Proof. exact (convert_annee_range "2023" 2023 eq_refl). Defined.

Example convert_annee_edges :
  convert_annee "-999" = Ok (-999) /\ convert_annee "9999" = Ok 9999 /\
  convert_annee "-001" = Ok (-1) /\ convert_annee "+1_2" = Ok 12 /\
  convert_annee " 42 " = Ok 42 /\ convert_annee "0x1f" = Raise ValueError /\
  convert_annee "12.5" = Raise ValueError /\ convert_annee "" = Ok (-1).
Proof. repeat split; reflexivity. Qed.

(** ** Identifiers and lookup *)

Lemma find_by_id (l : list Accident) : forall base k,
  map id l = map (fun i => base + Z.of_nat i) (seq 0 (List.length l)) ->
  find (fun accident => id accident =? k) l
  = if (base <=? k) && (k <? base + len l)
    then nth_error l (Z.to_nat (k - base)) else None.
Proof.
  induction l as [|a l IH]; intros base k H.
  - unfold len. cbn. destruct (_ && _) eqn:E; [|reflexivity].
    apply andb_true_iff in E as [E1 E2]. lia.
  - change (List.length (a :: l)) with (S (List.length l)) in H.
    cbn [seq map] in H. injection H as Ha Hl.
    rewrite <- seq_shift, map_map in Hl.
    specialize (IH (base + 1) k).
    cbn [find]. unfold len in *. change (List.length (a :: l)) with (S (List.length l)).
    rewrite Ha, Z.add_0_r.
    destruct (Z.eqb_spec base k) as [->|Hne].
    + rewrite Z.sub_diag. destruct (Z.leb_spec k k); [|lia].
      destruct (Z.ltb_spec k (k + Z.of_nat (S (List.length l)))); [|lia].
      reflexivity.
    + rewrite IH by (rewrite Hl; apply map_ext; intros i; lia).
      destruct (Z.leb_spec (base + 1) k), (Z.leb_spec base k); try lia;
        destruct (Z.ltb_spec k (base + 1 + Z.of_nat (List.length l))),
                 (Z.ltb_spec k (base + Z.of_nat (S (List.length l))));
        try lia; cbn [andb]; try reflexivity.
      replace (Z.to_nat (k - base)) with (S (Z.to_nat (k - (base + 1)))) by lia.
      reflexivity.
Qed.

Lemma numbered_lookup {Regression} (self : AccidentManager Regression) (k : Z) :
  numbered self ->
  get_accident_by_id self k
  = if (1 <=? k) && (k <=? len (accidents self))
    then nth_error (accidents self) (Z.to_nat (k - 1)) else None.
Proof.
  intros [Hids _]. unfold get_accident_by_id.
  rewrite (find_by_id _ 1 k).
  - destruct (Z.ltb_spec k (1 + len (accidents self))),
             (Z.leb_spec k (len (accidents self))); try lia; reflexivity.
  - rewrite Hids, <- seq_shift, map_map. apply map_ext. intros i. lia.
Qed.

(** What [find] returns is the first element that passes the test. *)
Lemma find_first {A} (f : A -> bool) (l : list A) (a : A) :
  find f l = Some a ->
  exists before after,
    l = before ++ a :: after /\ f a = true /\
    forall b, In b before -> f b = false.
Proof.
  induction l as [|x l IH]; cbn [find]; [discriminate|].
  destruct (f x) eqn:E.
  - intros [= <-]. exists [], l. repeat split; [assumption | intros b []].
  - intros H. destruct (IH H) as (before & after & -> & Ha & Hb).
    exists (x :: before), after. repeat split; [assumption|].
    intros b [<-|Hin]; [assumption | now apply Hb].
Qed.

Lemma find_append {A} (f : A -> bool) (l1 l2 : list A) :
  find f (l1 ++ l2)
  = match find f l1 with Some x => Some x | None => find f l2 end.
Proof.
  induction l1 as [|x l1 IH]; cbn [app find]; [reflexivity|].
  now destruct (f x).
Qed.

Section Lookup.

Context {Regression : Type}.
Variable LinearRegression : Regression.
Variable fit : Regression -> list Z -> list Z -> Regression * result unit.
Implicit Types self : AccidentManager Regression.

Lemma numbered_add self (year severity : Z) :
  numbered self -> numbered (snd (add_accident self year severity)).
Proof.
  intros [Hids Hc]. unfold numbered, add_accident. cbn [snd accidents id_counter].
  rewrite map_app, length_app, len_app, Hids, Hc. cbn [map List.length id].
  split; [|unfold len; cbn [List.length]; lia].
  rewrite Nat.add_1_r, seq_S, map_app. cbn [map]. do 2 f_equal.
  unfold len. lia.
Qed.

Lemma numbered_load_row self d self' :
  numbered self -> load_row_guarded self d = Ok self' -> numbered self'.
Proof.
  intros Hn. unfold load_row_guarded, load_row.
  destruct (getitem d 8) as [d8|[]]; cbn [bind]; try (now intros [= <-]); try discriminate.
  destruct (convert_annee _) as [y|[]]; cbn [bind]; try (now intros [= <-]); try discriminate.
  destruct (getitem d 6) as [d6|[]]; cbn [bind]; try (now intros [= <-]); try discriminate.
  destruct (_ && _); intros [= <-]; [now apply numbered_add | assumption].
Qed.

Lemma numbered_load_rows rows : forall self,
  numbered self -> numbered (fst (load_rows self rows)).
Proof.
  induction rows as [|d rows IH]; intros self Hn; cbn [load_rows]; [assumption|].
  destruct (load_row_guarded self d) as [s|] eqn:E; [|assumption].
  apply IH. eapply numbered_load_row; eassumption.
Qed.

Lemma numbered_train self :
  numbered self ->
  numbered (state (train_prediction_model LinearRegression fit self)).
Proof.
  unfold train_prediction_model. destruct (_ =? 0); [trivial|].
  intros []. now destruct (snd (fit _ _ _)).
Qed.

Lemma numbered_load_data self data_usagers :
  numbered self ->
  numbered (state (load_data_from_csv LinearRegression fit self data_usagers)).
Proof.
  intros Hn. unfold load_data_from_csv.
  pose proof (numbered_load_rows (filter (fun d => len d >? 8) data_usagers) _ Hn) as Hs.
  destruct (snd (load_rows self _)); [|assumption].
  cbn [state]. now apply numbered_train.
Qed.

(** X2. The numbering of the store is kept by every operation that changes
    the manager: the fresh store carries the ids 1, 2, ... with the counter
    one past the last, and so does the store after an addition, after a
    training, and after a load of any rows, however the training ends. *)
Theorem numbered_invariant :
  numbered (@init Regression) /\
  (forall self year severity,
     numbered self -> numbered (snd (add_accident self year severity))) /\
  (forall self,
     numbered self ->
     numbered (state (train_prediction_model LinearRegression fit self))) /\
  (forall self data_usagers,
     numbered self ->
     numbered (state (load_data_from_csv LinearRegression fit self data_usagers))).
Proof.
  split; [|split; [|split]].
  - split; reflexivity.
  - exact numbered_add.
  - exact numbered_train.
  - exact numbered_load_data.
Qed.

(** X3. In a numbered store, [get_accident_by_id] finds under an id from 1
    to the number of accidents the accident at that place, which carries
    that id, and finds nothing under any other id. *)
Theorem get_accident_by_id_numbered self :
  numbered self ->
  (forall k, 1 <= k <= len (accidents self) ->
     exists accident,
       get_accident_by_id self k = Some accident /\ id accident = k /\
       nth_error (accidents self) (Z.to_nat (k - 1)) = Some accident) /\
  (forall k, k < 1 \/ len (accidents self) < k -> get_accident_by_id self k = None).
Proof.
  intros Hn. split; intros k Hk; rewrite (numbered_lookup self k Hn).
  - destruct (Z.leb_spec 1 k), (Z.leb_spec k (len (accidents self))); try lia.
    cbn [andb].
    destruct (nth_error (accidents self) (Z.to_nat (k - 1))) as [a|] eqn:E.
    + exists a. repeat split.
      destruct Hn as [Hids _].
      assert (Hm : nth_error (map id (accidents self)) (Z.to_nat (k - 1)) = Some (id a))
        by (now rewrite nth_error_map, E).
      rewrite Hids, nth_error_map in Hm.
      rewrite nth_error_seq in Hm.
      destruct (Nat.ltb_spec (Z.to_nat (k - 1)) (List.length (accidents self)));
        cbn in Hm; [|discriminate].
      injection Hm as <-. lia.
    + apply nth_error_None in E. unfold len in *. lia.
  - destruct (Z.leb_spec 1 k), (Z.leb_spec k (len (accidents self))); try lia;
      reflexivity.
Qed.

(** X4. Adding to a numbered store and looking the new id up gives the
    accident just added; every other id gives what it gave before, in any
    store. *)
Theorem add_accident_then_lookup self (year severity : Z) :
  (numbered self ->
   get_accident_by_id (snd (add_accident self year severity))
     (id (fst (add_accident self year severity)))
   = Some (fst (add_accident self year severity))) /\
  (forall k, k <> id_counter self ->
     get_accident_by_id (snd (add_accident self year severity)) k
     = get_accident_by_id self k).
Proof.
  split.
  - intros Hn. pose proof (numbered_add self year severity Hn) as Hn'.
    rewrite (numbered_lookup _ _ Hn').
    unfold add_accident. cbn [fst snd accidents id].
    destruct Hn as [_ Hc]. rewrite len_app, Hc.
    pose proof (len_nonneg (accidents self)).
    change (len [_]) with 1.
    destruct (Z.leb_spec 1 (len (accidents self) + 1)); [|lia].
    destruct (Z.leb_spec (len (accidents self) + 1) (len (accidents self) + 1));
      [|lia].
    cbn [andb]. replace (len (accidents self) + 1 - 1) with (len (accidents self)) by lia.
    unfold len. rewrite Nat2Z.id, nth_error_app2 by lia.
    now rewrite Nat.sub_diag.
  - intros k Hk. unfold get_accident_by_id, add_accident. cbn [snd accidents].
    rewrite find_append. destruct (find _ (accidents self)); [reflexivity|].
    cbn [find id]. destruct (Z.eqb_spec (id_counter self) k); [congruence|].
    reflexivity.
Qed.

(** X5. The route [get_accident] answers with the first accident that
    carries the id: the answer carries it and no accident before it in the
    store does, and the first accident that carries the id is the answer.
    The route aborts with 404 exactly when no accident carries the id. *)
Theorem get_accident_not_found self (k : Z) :
  (forall accident, get_accident self k = Response accident ->
     id accident = k /\
     exists before after,
       accidents self = before ++ accident :: after /\
       forall other, In other before -> id other <> k) /\
  (forall before accident after,
     accidents self = before ++ accident :: after ->
     id accident = k ->
     (forall other, In other before -> id other <> k) ->
     get_accident self k = Response accident) /\
  (get_accident self k = Abort 404 "Accident non trouvé" <->
   forall accident, In accident (accidents self) -> id accident <> k) /\
  (forall status message, get_accident self k = Abort status message -> status = 404).
Proof.
  unfold get_accident, get_accident_by_id. split; [|split].
  - intros accident H.
    destruct (find _ (accidents self)) as [a|] eqn:E; [|discriminate].
    injection H as ->.
    destruct (find_first _ _ _ E) as (before & after & Hl & Hk & Hb).
    split; [now apply Z.eqb_eq|]. exists before, after. split; [assumption|].
    intros other Hin. apply Z.eqb_neq. now apply Hb.
  - intros before accident after -> Hk Hb.
    rewrite find_append.
    destruct (find _ before) as [b|] eqn:E.
    + apply find_some in E as [Hin Hid]. apply Z.eqb_eq in Hid.
      now destruct (Hb b Hin).
    + cbn [find]. now rewrite (proj2 (Z.eqb_eq _ _) Hk).
  - destruct (find _ (accidents self)) as [a|] eqn:E.
    + apply find_some in E as [Hin Hid]. apply Z.eqb_eq in Hid.
      split; [|discriminate].
      split; [discriminate|]. intros H. now destruct (H a Hin).
    + split; [|now intros ? ? [= <- _]].
      split; [|reflexivity]. intros _ a Hin.
      pose proof (find_none _ _ E a Hin) as H. cbn in H. now apply Z.eqb_neq.
Qed.

End Lookup.

(** In a store where two accidents carry the id 7, the route answers with
    the one that comes first. *)
Example get_accident_first_example :
  get_accident
    {| accidents := [ {| id := 3; annee := 2019; gravite := 1 |};
                      {| id := 7; annee := 2020; gravite := 5 |};
                      {| id := 7; annee := 2021; gravite := 10 |} ];
       id_counter := 8;
       model := @None unit |} 7
  = Response {| id := 7; annee := 2020; gravite := 5 |}.
Proof. reflexivity. Qed.

Lemma get_accident_by_id_numbered_witness :
  exists accident,
    get_accident_by_id five_accidents 4 = Some accident /\ id accident = 4 /\
    nth_error (accidents five_accidents) (Z.to_nat (4 - 1)) = Some accident.
Proof.
  refine (proj1 (get_accident_by_id_numbered five_accidents _) 4 _).
  - split; reflexivity.
  - vm_compute. split; discriminate.
Defined.

Lemma add_accident_then_lookup_witness :
  get_accident_by_id (snd (add_accident five_accidents 2024 10)) 6
  = Some {| id := 6; annee := 2024; gravite := 10 |}.
Proof.
  refine (proj1 (add_accident_then_lookup five_accidents 2024 10) _).
  split; reflexivity.
Defined.

(** ** Pages outside the claims: page 0, negative pages, page sizes *)

Section Pages.

Context {Regression : Type}.
Implicit Types self : AccidentManager Regression.

(** X6. Page 0 is empty, and a negative page counts from the end of the
    store: page -1 holds the [per_page] accidents before the last
    [per_page] ones, page -2 those before, and so on, as many as exist. *)
Theorem get_all_accidents_nonpositive_page self (pg per_page : Z) :
  1 <= per_page -> pg <= 0 ->
  exists p,
    get_all_accidents self pg per_page = Ok p /\
    (pg = 0 -> items p = []) /\
    (pg < 0 ->
     items p = window (accidents self)
                 (len (accidents self) + (pg - 1) * per_page)
                 (len (accidents self) + pg * per_page)) /\
    total p = len (accidents self) /\
    pages p = ceil_div (len (accidents self)) per_page.
Proof.
  intros Hpp Hpg. eexists. split; [apply get_all_accidents_ok; lia|].
  cbn [items total pages]. repeat split.
  - intros ->. unfold slice, adjust_index.
    pose proof (len_nonneg (accidents self)).
    destruct (Z.ltb_spec ((0 - 1) * per_page) 0); [|lia].
    destruct (Z.ltb_spec ((0 - 1) * per_page + per_page) 0); [lia|].
    replace (Z.to_nat _) with 0%nat by lia. reflexivity.
  - intros Hneg. rewrite slice_negative by nia. f_equal. lia.
  - symmetry. apply ceil_div_floor. lia.
Qed.

(** X7. A page from 1 holds [per_page] accidents, or what is left of the
    store after the pages before it: every page before the last is full,
    and no page holds more than [per_page]. *)
Theorem get_all_accidents_page_size self (pg per_page : Z) :
  1 <= pg -> 1 <= per_page ->
  exists p,
    get_all_accidents self pg per_page = Ok p /\
    len (items p)
    = Z.min per_page (Z.max 0 (len (accidents self) - (pg - 1) * per_page)) /\
    len (items p) <= per_page /\
    (pg < pages p -> len (items p) = per_page).
Proof.
  intros Hpg Hpp. eexists. split; [apply get_all_accidents_ok; lia|].
  cbn [items pages].
  assert (E : len (slice (accidents self) ((pg - 1) * per_page)
                     ((pg - 1) * per_page + per_page))
              = Z.min per_page (Z.max 0 (len (accidents self) - (pg - 1) * per_page))).
  { replace (pg - 1) with (Z.of_nat (Z.to_nat (pg - 1))) by lia.
    rewrite slice_page by assumption. unfold len.
    rewrite length_firstn, length_skipn. nia. }
  rewrite E. split; [reflexivity|]. split; [lia|].
  intros Hlast.
  pose proof (Z.div_mod (len (accidents self)) per_page ltac:(lia)) as D.
  pose proof (Z.mod_pos_bound (len (accidents self)) per_page ltac:(lia)) as B.
  destruct (Z.eqb_spec (len (accidents self) mod per_page) 0); nia.
Qed.

(** X8. The route [get_accidents] without arguments lists the first 100
    accidents as page 1; an argument that is not an integer counts as
    absent; and [per_page=0] in the query makes the route raise
    [ZeroDivisionError]. *)
Theorem get_accidents_defaults self :
  get_accidents self None None
    = Ok {| list_accidents := firstn 100 (accidents self);
            list_total := len (accidents self);
            list_pages := ceil_div (len (accidents self)) 100;
            current_page := 1 |} /\
  (forall raw other, int10 raw = Raise ValueError ->
     get_accidents self (Some raw) other = get_accidents self None other /\
     get_accidents self other (Some raw) = get_accidents self other None) /\
  (forall page_arg, get_accidents self page_arg (Some "0") = Raise ZeroDivisionError).
Proof.
  split; [|split].
  - unfold get_accidents. cbn [args_get_int].
    rewrite get_all_accidents_ok by lia. cbn [bind items total pages page].
    rewrite ceil_div_floor by lia. do 2 f_equal.
    change ((1 - 1) * 100) with (Z.of_nat 0 * 100).
    rewrite slice_page by lia. reflexivity.
  - intros raw other H. unfold get_accidents, args_get_int. now rewrite H.
  - reflexivity.
Qed.

End Pages.

Lemma get_all_accidents_nonpositive_page_witness :
  exists p,
    get_all_accidents five_accidents (-1) 2 = Ok p /\
    (-1 = 0 -> items p = []) /\
    (-1 < 0 ->
     items p = window (accidents five_accidents)
                 (len (accidents five_accidents) + (-1 - 1) * 2)
                 (len (accidents five_accidents) + -1 * 2)) /\
    total p = len (accidents five_accidents) /\
    pages p = ceil_div (len (accidents five_accidents)) 2.
Proof.
  apply (get_all_accidents_nonpositive_page five_accidents (-1) 2); lia.
Defined.

Lemma get_all_accidents_page_size_witness :
  exists p,
    get_all_accidents five_accidents 3 2 = Ok p /\
    len (items p)
    = Z.min 2 (Z.max 0 (len (accidents five_accidents) - (3 - 1) * 2)) /\
    len (items p) <= 2 /\
    (3 < pages p -> len (items p) = 2).
Proof.
  apply (get_all_accidents_page_size five_accidents 3 2); lia.
Defined.

(** ** What a load keeps *)

Lemma getitem_nth {A} (l : list A) (i : Z) (default : A) :
  0 <= i < len l -> getitem l i = Ok (nth (Z.to_nat i) l default).
Proof.
  intros H. unfold getitem. destruct (Z.ltb_spec i 0); [lia|].
  destruct (Z.ltb_spec i 0); [lia|].
  destruct (nth_error l (Z.to_nat i)) as [a|] eqn:E.
  - now rewrite (nth_error_nth _ _ default E).
  - apply nth_error_None in E. unfold len in H. lia.
Qed.

Lemma convert_annee_cases val :
  (exists n, convert_annee val = Ok n) \/ convert_annee val = Raise ValueError.
Proof.
  destruct (convert_annee val) as [n|e] eqn:E; [left; now exists n|].
  right. now rewrite (convert_annee_raises _ _ E).
Qed.

Section Keeping.

Context {Regression : Type}.
Variable LinearRegression : Regression.
Variable fit : Regression -> list Z -> list Z -> Regression * result unit.
Implicit Types self : AccidentManager Regression.

Lemma add_all_cons self (year severity : Z) rest :
  snd (add_all self ((year, severity) :: rest))
  = snd (add_all (snd (add_accident self year severity)) rest).
Proof.
  cbn [add_all]. unfold add_accident. cbn [snd].
  now destruct (add_all _ rest).
Qed.

Lemma load_row_guarded_values self d :
  8 < len d ->
  load_row_guarded self d
  = Ok match row_values d with
       | Some (year, severity) => snd (add_accident self year severity)
       | None => self
       end.
Proof.
  intros Hlen. unfold load_row_guarded, load_row, row_values.
  destruct (Z.gtb_spec (len d) 8); [|lia].
  rewrite (getitem_nth d 8 "") by lia. cbn [bind].
  change (Z.to_nat 8) with 8%nat.
  destruct (convert_annee _) as [y|e] eqn:Ey; cbn [bind].
  - rewrite (getitem_nth d 6 "") by lia. cbn [bind].
    change (Z.to_nat 6) with 6%nat. now destruct (_ && _).
  - now rewrite (convert_annee_raises _ _ Ey).
Qed.

Lemma load_rows_values rows : forall self,
  load_rows self (filter (fun d => len d >? 8) rows)
  = (snd (add_all self (kept_values rows)), Ok tt).
Proof.
  induction rows as [|d rows IH]; intros self; [reflexivity|].
  cbn [filter]. unfold kept_values. cbn [flat_map]. fold (kept_values rows).
  destruct (Z.gtb_spec (len d) 8) as [Hlen|Hlen].
  - cbn [load_rows]. rewrite load_row_guarded_values by assumption.
    rewrite IH. destruct (row_values d) as [[y g]|]; [|reflexivity].
    cbn [app]. now rewrite add_all_cons.
  - rewrite IH. unfold row_values. destruct (Z.gtb_spec (len d) 8); [lia|].
    reflexivity.
Qed.

Lemma load_data_from_csv_state self (data_usagers : list (list string)) :
  let added := snd (add_all self (kept_values data_usagers)) in
  let trained := train_prediction_model LinearRegression fit added in
  load_data_from_csv LinearRegression fit self data_usagers
  = {| outcome := outcome trained;
       state := state trained;
       output :=
         [Print "Chargement des données depuis les fichiers CSV...";
          Print ("Données chargées : " ++ str_of_int (len (accidents added))
                 ++ " accidents")%string]
         ++ output trained |}.
Proof.
  cbv zeta. unfold load_data_from_csv. now rewrite load_rows_values.
Qed.

Lemma load_data_from_csv_accidents self (data_usagers : list (list string)) :
  accidents (state (load_data_from_csv LinearRegression fit self data_usagers))
  = accidents self ++ fst (add_all self (kept_values data_usagers)).
Proof.
  rewrite load_data_from_csv_state. cbn [state].
  rewrite (proj1 (train_accidents _ _ _)).
  now destruct (add_all_from self (kept_values data_usagers)) as (<- & _).
Qed.

(** X9. A load is the addition, in the order of the file, of the rows that
    contribute, followed by a training: a row contributes its year and
    severity when it has more than 8 fields, its year field is read, and
    neither value is negative; every other row is passed over. The loop
    raises nothing; the load ends as the training does, in the state the
    training leaves. *)
Theorem load_data_from_csv_kept_values self (data_usagers : list (list string)) :
  let added := snd (add_all self (kept_values data_usagers)) in
  let trained := train_prediction_model LinearRegression fit added in
  load_rows self (filter (fun d => len d >? 8) data_usagers) = (added, Ok tt) /\
  load_data_from_csv LinearRegression fit self data_usagers
  = {| outcome := outcome trained;
       state := state trained;
       output :=
         [Print "Chargement des données depuis les fichiers CSV...";
          Print ("Données chargées : " ++ str_of_int (len (accidents added))
                 ++ " accidents")%string]
         ++ output trained |} /\
  accidents (state trained)
  = accidents self ++ fst (add_all self (kept_values data_usagers)) /\
  map (fun a => (annee a, gravite a))
      (fst (add_all self (kept_values data_usagers)))
  = kept_values data_usagers.
Proof.
  cbv zeta. split; [apply load_rows_values|].
  split; [apply load_data_from_csv_state|]. split.
  - rewrite (proj1 (train_accidents _ _ _)).
    now destruct (add_all_from self (kept_values data_usagers)) as (<- & _).
  - now destruct (add_all_from self (kept_values data_usagers)) as (_ & _ & _ & _ & Hin).
Qed.

Lemma convert_annee_kept val year :
  convert_annee val = Ok year -> (year >? -1) = true -> 0 <= year <= 9999.
Proof.
  unfold convert_annee. destruct (Z.eqb_spec (str_len val) 4) as [H4|H4]; cbn [negb].
  - intros H Hpos. pose proof (int10_four_characters val year H4 H). lia.
  - intros [= <-]. lia.
Qed.

Lemma row_values_range d year severity :
  row_values d = Some (year, severity) ->
  0 <= year <= 9999 /\ In severity [1; 100; 10; 5].
Proof.
  unfold row_values. destruct (_ >? 8); [|discriminate].
  destruct (convert_annee _) as [y|] eqn:Ey; [|discriminate].
  destruct (_ && _) eqn:B; [|discriminate]. intros [= <- <-].
  apply andb_true_iff in B as [By Bg].
  split; [exact (convert_annee_kept _ _ Ey By)|].
  pose proof (convert_grav_range (str_slice (nth 6 d "") 1 (-1))) as R.
  cbn [In] in *. lia.
Qed.

Lemma kept_values_range rows :
  Forall (fun v => 0 <= fst v <= 9999 /\ In (snd v) [1; 100; 10; 5])
         (kept_values rows).
Proof.
  unfold kept_values. induction rows as [|d rows IH]; [constructor|].
  cbn [flat_map]. destruct (row_values d) as [[y g]|] eqn:E; [|exact IH].
  constructor; [|exact IH]. exact (row_values_range d y g E).
Qed.

Lemma added_values_range self (data_usagers : list (list string)) :
  Forall (fun a => 0 <= annee a <= 9999 /\ In (gravite a) [1; 100; 10; 5])
         (fst (add_all self (kept_values data_usagers))).
Proof.
  destruct (add_all_from self (kept_values data_usagers)) as (_ & _ & _ & _ & Hin).
  pose proof (kept_values_range data_usagers) as R. rewrite <- Hin in R.
  now rewrite Forall_map in R.
Qed.

(** X10. Whatever the rows, the accidents that a load adds have a year
    between 0 and 9999 and a severity of 1, 100, 10 or 5, and ids that
    follow the counter; the accidents that were in the store stay, before
    them. This is so however the training of the load ends. *)
Theorem load_data_from_csv_values self (data_usagers : list (list string)) :
  exists added,
    accidents (state (load_data_from_csv LinearRegression fit self data_usagers))
    = accidents self ++ added /\
    Forall (fun a => 0 <= annee a <= 9999 /\ In (gravite a) [1; 100; 10; 5])
           added /\
    map id added
    = map (fun i => id_counter self + Z.of_nat i) (seq 0 (List.length added)).
Proof.
  exists (fst (add_all self (kept_values data_usagers))).
  split; [apply load_data_from_csv_accidents|].
  split; [apply added_values_range|].
  destruct (add_all_from self (kept_values data_usagers)) as (_ & _ & _ & Hids & Hin).
  rewrite Hids. do 2 f_equal.
  rewrite <- (length_map (fun a => (annee a, gravite a))). now rewrite Hin.
Qed.

Lemma convert_rows_values rows :
  match convert_rows (filter (fun d => len d >? 8) rows) with
  | Ok xy =>
      filter (fun d => (fst d >? -1) && (snd d >? -1)) xy = kept_values rows /\
      ~ Exists unreadable_year rows
  | Raise e => e = ValueError /\ Exists unreadable_year rows
  end.
Proof.
  induction rows as [|d rows IH].
  - cbn. split; [reflexivity|]. intros H. inversion H.
  - cbn [filter]. unfold kept_values. cbn [flat_map]. fold (kept_values rows).
    unfold row_values. destruct (Z.gtb_spec (len d) 8) as [Hlen|Hlen].
    + cbn [convert_rows]. rewrite (getitem_nth d 8 "") by lia. cbn [bind].
      change (Z.to_nat 8) with 8%nat.
      destruct (convert_annee_cases (str_slice (nth 8 d "") 1 (-1)))
        as [(y & Ey)|Ey]; rewrite Ey; cbn [bind].
      * rewrite (getitem_nth d 6 "") by lia. cbn [bind].
        change (Z.to_nat 6) with 6%nat.
        destruct (convert_rows _) as [xy|e]; cbn [bind].
        -- destruct IH as [IH1 IH2]. split.
           ++ cbn [filter fst snd]. destruct (_ && _); cbn [app]; now rewrite IH1.
           ++ intros H. inversion H as [? ? [_ Hbad]|]; subst; [congruence|tauto].
        -- destruct IH as [-> IH2]. split; [reflexivity|]. now constructor 2.
      * split; [reflexivity|]. constructor 1. split; [lia | assumption].
    + destruct (convert_rows _) as [xy|e].
      * destruct IH as [IH1 IH2]. split; [assumption|].
        intros H. inversion H as [? ? [Hl _]|]; subst; [lia|tauto].
      * destruct IH as [-> IH2]. split; [reflexivity|]. now constructor 2.
Qed.

(** The columns of the store that a load builds from the fresh manager,
    and how the load ends. *)
Lemma load_data_from_csv_init (data_usagers : list (list string)) :
  let loaded := load_data_from_csv LinearRegression fit init data_usagers in
  let kept := kept_values data_usagers in
  map annee (accidents (state loaded)) = map fst kept /\
  map gravite (accidents (state loaded)) = map snd kept /\
  outcome loaded = match map fst kept with
                   | [] => Ok tt
                   | _ :: _ => snd (fit LinearRegression (map fst kept) (map snd kept))
                   end.
Proof.
  cbv zeta.
  pose proof (load_data_from_csv_accidents init data_usagers) as Hacc.
  cbn [accidents init app] in Hacc.
  destruct (add_all_from (@init Regression) (kept_values data_usagers))
    as (Hall & _ & _ & _ & Hin).
  cbn [accidents init app] in Hall.
  assert (Hx : map annee (fst (add_all (@init Regression) (kept_values data_usagers)))
               = map fst (kept_values data_usagers))
    by (now rewrite <- (f_equal (map fst) Hin), map_map).
  assert (Hy : map gravite (fst (add_all (@init Regression) (kept_values data_usagers)))
               = map snd (kept_values data_usagers))
    by (now rewrite <- (f_equal (map snd) Hin), map_map).
  rewrite Hacc. split; [exact Hx|]. split; [exact Hy|].
  rewrite load_data_from_csv_state. cbn [outcome].
  rewrite train_outcome, Hall, <- Hx, <- Hy.
  now destruct (fst (add_all _ _)).
Qed.

(** X11. When the statements of the module go through, the columns they
    compute are those of the store that a load builds from the same rows:
    the years and the severities of its accidents, in order. The years are
    between 0 and 9999 and the severities 1, 100, 10 or 5; the load
    returns when [fit] returns on these columns, and when there are
    none. *)
Theorem module_columns_agree (data_usagers : list (list string)) x_annee y_gravite :
  module_columns data_usagers = Ok (x_annee, y_gravite) ->
  let loaded := load_data_from_csv LinearRegression fit init data_usagers in
  map annee (accidents (state loaded)) = x_annee /\
  map gravite (accidents (state loaded)) = y_gravite /\
  Forall (fun v => 0 <= v <= 9999) x_annee /\
  Forall (fun v => In v [1; 100; 10; 5]) y_gravite /\
  outcome loaded = match x_annee with
                   | [] => Ok tt
                   | _ :: _ => snd (fit LinearRegression x_annee y_gravite)
                   end.
Proof.
  unfold module_columns. pose proof (convert_rows_values data_usagers) as C.
  destruct (convert_rows _) as [xy|]; [|discriminate].
  destruct C as [C _]. cbn [bind]. rewrite C. intros [= <- <-]. cbv zeta.
  destruct (load_data_from_csv_init data_usagers) as (Hx & Hy & Ho).
  pose proof (kept_values_range data_usagers) as R.
  split; [exact Hx|]. split; [exact Hy|].
  split; [|split; [|exact Ho]]; rewrite Forall_map;
    eapply Forall_impl; [|exact R| |exact R]; cbn beta; tauto.
Qed.

(** X12. The statements of the module raise [ValueError], and nothing
    else, exactly when some row of more than 8 fields has a year field of
    4 characters that [int] refuses: the comprehension has no handler,
    where the loop of the load passes the row over and raises nothing, so
    that the load of the same rows returns when [fit] returns on the
    values it has kept, and when it has kept none. *)
Theorem module_columns_raises (data_usagers : list (list string)) :
  (module_columns data_usagers = Raise ValueError
   <-> Exists unreadable_year data_usagers) /\
  (forall e, module_columns data_usagers = Raise e -> e = ValueError) /\
  snd (load_rows (@init Regression) (filter (fun d => len d >? 8) data_usagers))
    = Ok tt /\
  outcome (load_data_from_csv LinearRegression fit init data_usagers)
    = match map fst (kept_values data_usagers) with
      | [] => Ok tt
      | _ :: _ => snd (fit LinearRegression (map fst (kept_values data_usagers))
                                            (map snd (kept_values data_usagers)))
      end.
Proof.
  assert (L : snd (load_rows (@init Regression)
                     (filter (fun d => len d >? 8) data_usagers)) = Ok tt)
    by (now rewrite load_rows_values).
  destruct (load_data_from_csv_init data_usagers) as (_ & _ & Ho).
  unfold module_columns. pose proof (convert_rows_values data_usagers) as C.
  destruct (convert_rows _) as [xy|e]; cbn [bind].
  - destruct C as [_ C]. repeat split; try discriminate; try assumption. tauto.
  - destruct C as [-> C]. repeat split; try tauto; try assumption.
    now intros ? [= <-].
Qed.

End Keeping.

Lemma load_data_from_csv_values_witness :
  exists added,
    accidents (state (load_data_from_csv Sklearn.LinearRegression Sklearn.fit init
                 [usager_row "1" "1987"; usager_row "2" "abcd"; usager_row "9" "1990";
                  ["202300000002"; quoted "4"]; usager_row "4" "2001"]))
    = @accidents Sklearn.Regression init ++ added /\
    Forall (fun a => 0 <= annee a <= 9999 /\ In (gravite a) [1; 100; 10; 5])
           added /\
    map id added
    = map (fun i => @id_counter Sklearn.Regression init + Z.of_nat i)
          (seq 0 (List.length added)).
Proof.
  exact (load_data_from_csv_values Sklearn.LinearRegression Sklearn.fit init
           [usager_row "1" "1987"; usager_row "2" "abcd"; usager_row "9" "1990";
            ["202300000002"; quoted "4"]; usager_row "4" "2001"]).
Defined.

Lemma module_columns_agree_witness :
  let loaded :=
    load_data_from_csv Sklearn.LinearRegression Sklearn.fit init
      [usager_row "1" "1987"; usager_row "9" "1990"; usager_row "4" "2001"] in
  map annee (accidents (state loaded)) = [1987; 2001] /\
  map gravite (accidents (state loaded)) = [1; 5] /\
  Forall (fun v => 0 <= v <= 9999) [1987; 2001] /\
  Forall (fun v => In v [1; 100; 10; 5]) [1; 5] /\
  outcome loaded = snd (Sklearn.fit Sklearn.LinearRegression [1987; 2001] [1; 5]).
Proof.
  exact (module_columns_agree Sklearn.LinearRegression Sklearn.fit
           [usager_row "1" "1987"; usager_row "9" "1990"; usager_row "4" "2001"]
           [1987; 2001] [1; 5] eq_refl).
Defined.

Example module_columns_example :
  module_columns
    [usager_row "1" "1987"; usager_row "2" "abcd"; usager_row "4" "2001"]
  = Raise ValueError.
Proof. reflexivity. Qed.

(** ** Statistics of the stores the application builds *)

Lemma truediv_raises (a b : Z) e :
  b <> 0 -> truediv a b = Raise e -> e = OverflowError.
Proof.
  intros Hb. unfold truediv. destruct (Z.eqb_spec b 0); [contradiction|].
  destruct (nearest_float a b); try discriminate. now intros [= <-].
Qed.

Lemma round_raises (x : float) (ndigits : Z) e :
  round x ndigits = Raise e -> e = OverflowError.
Proof.
  unfold round. destruct x as [s| | |s m e0]; try discriminate.
  destruct (_ >? 323); [discriminate|]. destruct (_ <? -308); [discriminate|].
  destruct (_ =? 0); [discriminate|].
  destruct (nearest_float _ _); try discriminate. now intros [= <-].
Qed.

Lemma rounded_mean_raises (values : list Z) e :
  values <> [] -> rounded_mean values = Raise e -> e = OverflowError.
Proof.
  intros Hne. unfold rounded_mean.
  destruct (truediv _ _) as [q|e1] eqn:T; cbn [bind].
  - apply round_raises.
  - intros [= <-]. eapply truediv_raises; [|exact T].
    destruct values; [contradiction|]. unfold len.
    change (List.length (z :: values)) with (S (List.length values)). lia.
Qed.

Section Application.

Context {Regression : Type}.
Variable LinearRegression : Regression.
Variable fit : Regression -> list Z -> list Z -> Regression * result unit.
Implicit Types self : AccidentManager Regression.

(** X13. The only exception of [get_stats] is [OverflowError]: the test on
    the empty store keeps the divisions from dividing by zero. *)
Theorem get_stats_raises self e :
  get_stats self = Raise e -> e = OverflowError.
Proof.
  destruct (accidents self) as [|a l] eqn:E.
  - unfold get_stats. rewrite E. discriminate.
  - rewrite get_stats_nonempty by congruence. rewrite E.
    destruct (rounded_mean (map annee (a :: l))) as [my|e1] eqn:Ry; cbn [bind].
    + destruct (rounded_mean (map gravite (a :: l))) as [ms|e2] eqn:Rs; cbn [bind];
        [discriminate|].
      intros [= <-]. eapply rounded_mean_raises; [|exact Rs]. discriminate.
    + intros [= <-]. eapply rounded_mean_raises; [|exact Ry]. discriminate.
Qed.

(** The accidents of the application's stores hold a year from 0 to 9999
    and a severity from 1 to 100. *)
Lemma reachable_values self :
  reachable LinearRegression fit self ->
  Forall (fun a => 0 <= annee a <= 9999 /\ 1 <= gravite a <= 100) (accidents self).
Proof.
  induction 1 as [|self rows _ IH Hload|self y g _ IH [Hy Hg]|self _ IH].
  - constructor.
  - rewrite load_data_from_csv_accidents.
    apply Forall_app. split; [assumption|].
    eapply Forall_impl; [|apply added_values_range]. cbn [In]. intros a [Ha Hg]. lia.
  - unfold create_accident, add_accident. cbn [snd accidents].
    apply Forall_app. split; [assumption|]. constructor; [|constructor].
    cbn [annee gravite]. lia.
  - now rewrite (proj1 (train_accidents _ _ _)).
Qed.

Lemma reachable_numbered self :
  reachable LinearRegression fit self -> numbered self.
Proof.
  induction 1 as [|self rows _ IH Hl|self y g _ IH _|self _ IH].
  - split; reflexivity.
  - apply numbered_load_data, IH.
  - apply numbered_add, IH.
  - apply numbered_train, IH.
Qed.

(** X14. On every store that the application builds (by loads, by
    creations with data in the ranges of the schema, by trainings)
    [get_stats] returns: the count, and two means when the store is not
    empty. The ids of such a store are 1, 2, ... in order, its years lie
    between 0 and 9999 and its severities between 1 and 100. *)
Theorem reachable_get_stats self :
  reachable LinearRegression fit self ->
  numbered self /\
  Forall (fun a => 0 <= annee a <= 9999 /\ 1 <= gravite a <= 100) (accidents self) /\
  exists stats,
    get_stats self = Ok stats /\
    total_accidents stats = len (accidents self) /\
    (accidents self <> [] ->
     exists mean_year mean_severity,
       annee_moyenne stats = Float mean_year /\
       gravite_moyenne stats = Float mean_severity).
Proof.
  intros Hr. split; [now apply reachable_numbered|].
  pose proof (reachable_values self Hr) as Hv. split; [exact Hv|].
  assert (B : 9999 <= 2 ^ 1000) by (apply Z.leb_le; vm_compute; reflexivity).
  destruct (accidents self) as [|a l] eqn:E.
  - unfold get_stats. rewrite E. eexists. split; [reflexivity|].
    split; [reflexivity|]. congruence.
  - rewrite get_stats_nonempty by congruence. rewrite E.
    destruct (rounded_mean_returns (map annee (a :: l))) as (my & ->);
      [discriminate | |].
    { apply Forall_map. eapply Forall_impl; [|exact Hv]. cbn beta. lia. }
    destruct (rounded_mean_returns (map gravite (a :: l))) as (ms & ->);
      [discriminate | |].
    { apply Forall_map. eapply Forall_impl; [|exact Hv]. cbn beta. lia. }
    cbn [bind]. eexists. split; [reflexivity|]. split; [reflexivity|].
    intros _. now exists my, ms.
Qed.

End Application.

(** [get_stats_raises] on the store with a year of 2^1024. *)
Lemma get_stats_raises_witness : OverflowError = OverflowError.
Proof.
  refine (get_stats_raises huge_year OverflowError _).
  vm_compute. reflexivity.
Defined.

(** [reachable_get_stats] on the store after a load of three rows, which
    keeps two, and a creation. *)
Lemma reachable_get_stats_witness :
  exists stats,
    get_stats
      (snd (create_accident
              {| accidents := [ {| id := 1; annee := 1987; gravite := 1 |};
                                {| id := 2; annee := 2001; gravite := 5 |} ];
                 id_counter := 3;
                 model := Some tt |} 2024 10))
    = Ok stats /\ total_accidents stats = 3.
Proof.
  assert (L : reachable tt (fun _ _ _ => (tt, Ok tt))
                {| accidents := [ {| id := 1; annee := 1987; gravite := 1 |};
                                  {| id := 2; annee := 2001; gravite := 5 |} ];
                   id_counter := 3;
                   model := Some tt |}).
  { apply (reachable_load tt (fun _ _ _ => (tt, Ok tt)) init
             [usager_row "1" "1987"; usager_row "9" "1990"; usager_row "4" "2001"]).
    - apply reachable_init.
    - reflexivity. }
  assert (S : AccidentCreateSchema 2024 10) by (unfold AccidentCreateSchema; lia).
  pose proof (reachable_create _ _ _ 2024 10 L S) as R.
  destruct (reachable_get_stats tt (fun _ _ _ => (tt, Ok tt)) _ R)
    as (_ & _ & stats & E & T & _).
  exists stats. split; [exact E | exact T].
Defined.

(** ** The model after additions *)

Section Staleness.

Context {Regression float64 : Type}.
Variable LinearRegression : Regression.
Variable fit : Regression -> list Z -> list Z -> Regression * result unit.
Variable predict : Regression -> Z -> result float64.
Variable round64 : float64 -> Z -> result float64.
Implicit Types self : AccidentManager Regression.

(** X15. Additions do not touch the model: after any additions a
    prediction is what it was before them, the error dictionary if the
    store held no model, what the model held before them gives otherwise.
    A training after them calls [fit] on the old and the new accidents, in
    order, and ends as [fit] does; the prediction then comes from the
    object that this call leaves: its value rounded when [predict] and the
    rounding return, the exception otherwise. *)
Theorem predict_gravite_after_additions self (inputs : list (Z * Z)) (year : Z) :
  predict_gravite predict round64 (snd (add_all self inputs)) year
    = predict_gravite predict round64 self year /\
  (accidents self ++ fst (add_all self inputs) <> [] ->
   let fitted := fit LinearRegression
                   (map annee (accidents self) ++ map fst inputs)
                   (map gravite (accidents self) ++ map snd inputs) in
   let trained :=
     train_prediction_model LinearRegression fit (snd (add_all self inputs)) in
   outcome trained = snd fitted /\
   model (state trained) = Some (fst fitted) /\
   predict_gravite predict round64 (state trained) year
   = (prediction <- predict (fst fitted) year ;;
      gravite_predite <- round64 prediction 2 ;;
      Ok (Predicted year gravite_predite),
      [CallPredict year])).
Proof.
  destruct (add_all_from self inputs) as (Hacc & _ & Hmod & _ & Hin).
  split.
  - unfold predict_gravite. now rewrite Hmod.
  - intros Hne. cbv zeta. rewrite <- Hacc in Hne.
    destruct (train_with_data LinearRegression fit _ Hne) as (Hm & Ho & _).
    rewrite Hacc, !map_app in Hm, Ho.
    rewrite <- (f_equal (map fst) Hin), <- (f_equal (map snd) Hin), !map_map.
    cbn [fst snd].
    split; [exact Ho|]. split; [exact Hm|].
    exact (predict_gravite_model predict round64 _ _ _ Hm).
Qed.

(** X16. A training does not depend on the model held before it and keeps
    the accidents and the counter: two managers with the same accidents
    and counter are the same after a training, which ends in the same way
    for both, and a second training in a row changes nothing. *)
Theorem train_prediction_model_replaces self :
  (forall self2,
     accidents self2 = accidents self -> id_counter self2 = id_counter self ->
     accidents self <> [] ->
     train_prediction_model LinearRegression fit self2
       = train_prediction_model LinearRegression fit self) /\
  state (train_prediction_model LinearRegression fit
           (state (train_prediction_model LinearRegression fit self)))
    = state (train_prediction_model LinearRegression fit self) /\
  accidents (state (train_prediction_model LinearRegression fit self))
    = accidents self /\
  id_counter (state (train_prediction_model LinearRegression fit self))
    = id_counter self.
Proof.
  split; [|split; [|apply train_accidents]].
  - intros self2 Ha Hc Hne. unfold train_prediction_model. rewrite Ha, Hc.
    destruct (accidents self); [contradiction|]. now rewrite len_cons_nonzero.
  - destruct (train_accidents LinearRegression fit self) as [Ha Hc].
    rewrite (train_state _ _ (state _)), Ha, Hc, (train_state _ _ self).
    now destruct (_ =? 0).
Qed.

End Staleness.

(** On the five accidents with a model, the line [10 * year - 20190]
    standing for a fitted regression: two additions later the prediction
    is still that of the line. *)
Example predict_gravite_after_additions_example :
  predict_gravite (fun m x => Ok (fst m * x + snd m)) (fun v _ => Ok v)
    (snd (add_all five_accidents_line [(2024, 100); (2025, 100)])) 2023
  = (Ok (Predicted 2023 40), [CallPredict 2023]).
Proof. reflexivity. Qed.

(** ** Fields and lines *)

Lemma slice_inner {A} (a b : A) (l : list A) : slice (a :: l ++ [b]) 1 (-1) = l.
Proof.
  unfold slice, adjust_index, len. cbn [List.length]. rewrite length_app.
  cbn [List.length].
  destruct (Z.ltb_spec 1 0); [lia|]. destruct (Z.ltb_spec (-1) 0); [|lia].
  replace (Z.to_nat (Z.min 1 _)) with 1%nat by lia. cbn [skipn].
  replace (Z.to_nat _) with (List.length l) by lia.
  now rewrite firstn_app, Nat.sub_diag, firstn_all, app_nil_r.
Qed.

Lemma slice_inner_length {A} (l : list A) :
  len (slice l 1 (-1)) = Z.max 0 (len l - 2).
Proof.
  unfold slice, adjust_index, len.
  destruct (Z.ltb_spec 1 0); [lia|]. destruct (Z.ltb_spec (-1) 0); [|lia].
  rewrite length_firstn, length_skipn. lia.
Qed.

Lemma list_ascii_of_string_app (s1 s2 : string) :
  list_ascii_of_string (s1 ++ s2)%string
  = list_ascii_of_string s1 ++ list_ascii_of_string s2.
Proof. induction s1 as [|c s1 IH]; cbn; [reflexivity | now rewrite IH]. Qed.

Lemma length_string_of_list_ascii (l : list ascii) :
  String.length (string_of_list_ascii l) = List.length l.
Proof. induction l as [|c l IH]; cbn; congruence. Qed.

(** X17. A field is read without its first and its last character,
    whatever they are: a year between quotes is read as the year alone
    would be. A year field that does not have 6 characters gives -1, and
    the row is passed over. *)
Theorem str_slice_unquotes :
  (forall a b s, str_slice (String a (s ++ String b "")) 1 (-1) = s) /\
  (forall s, convert_annee (str_slice (quoted s) 1 (-1)) = convert_annee s) /\
  (forall field, str_len (str_slice field 1 (-1)) = Z.max 0 (str_len field - 2)) /\
  (forall field, str_len field <> 6 ->
     convert_annee (str_slice field 1 (-1)) = Ok (-1)).
Proof.
  assert (U : forall a b s, str_slice (String a (s ++ String b "")) 1 (-1) = s).
  { intros a b s. unfold str_slice. cbn [list_ascii_of_string].
    rewrite list_ascii_of_string_app. cbn [list_ascii_of_string].
    rewrite slice_inner. apply string_of_list_ascii_of_string. }
  assert (L : forall field,
            str_len (str_slice field 1 (-1)) = Z.max 0 (str_len field - 2)).
  { intros field. unfold str_len, str_slice.
    rewrite length_string_of_list_ascii.
    pose proof (slice_inner_length (list_ascii_of_string field)) as H.
    unfold len in H. now rewrite length_list_ascii_of_string in H. }
  split; [exact U|]. split; [|split; [exact L|]].
  - intros s. unfold quoted. now rewrite U.
  - intros field H. unfold convert_annee. rewrite L.
    destruct (Z.eqb_spec (Z.max 0 (str_len field - 2)) 4); [lia | reflexivity].
Qed.

Lemma split_String (c sep : ascii) (s : string) :
  split (String c s) sep
  = if Ascii.eqb c sep then "" :: split s sep
    else match split s sep with
         | field :: fields => String c field :: fields
         | [] => [String c ""]
         end.
Proof.
  unfold split. cbn [list_ascii_of_string split_chars].
  destruct (Ascii.eqb c sep); [reflexivity|].
  now destruct (split_chars sep (list_ascii_of_string s)).
Qed.

Lemma split_not_empty (s : string) (sep : ascii) : split s sep <> [].
Proof.
  destruct s as [|c s]; [discriminate|]. rewrite split_String.
  destruct (Ascii.eqb c sep); [discriminate|]. now destruct (split s sep).
Qed.

Lemma join_split (s : string) (sep : ascii) : join sep (split s sep) = s.
Proof.
  induction s as [|c s IH]; [reflexivity|]. rewrite split_String.
  pose proof (split_not_empty s sep) as Hne.
  destruct (Ascii.eqb_spec c sep) as [->|Hc].
  - cbn [join]. destruct (split s sep) as [|f fs]; [contradiction|].
    cbn [append]. now rewrite IH.
  - destruct (split s sep) as [|f fs]; [contradiction|].
    destruct fs as [|g fs]; cbn [join] in *; cbn [append]; now rewrite IH.
Qed.

Lemma split_length (s : string) (sep : ascii) :
  len (split s sep) = 1 + count_char sep s.
Proof.
  induction s as [|c s IH]; [reflexivity|]. rewrite split_String.
  cbn [count_char]. pose proof (split_not_empty s sep) as Hne.
  destruct (Ascii.eqb c sep).
  - unfold len in *. cbn [List.length]. lia.
  - destruct (split s sep) as [|f fs]; [contradiction|].
    unfold len in *. cbn [List.length] in *. lia.
Qed.

Lemma split_fields (s : string) (sep : ascii) :
  Forall (fun field => contains_char sep field = false) (split s sep).
Proof.
  induction s as [|c s IH]; [repeat constructor|]. rewrite split_String.
  pose proof (split_not_empty s sep) as Hne.
  destruct (Ascii.eqb c sep) eqn:E.
  - constructor; [reflexivity | assumption].
  - destruct (split s sep) as [|f fs]; [contradiction|].
    inversion IH as [|? ? Hf Hfs]; subst. constructor; [|assumption].
    cbn [contains_char]. now rewrite E, Hf.
Qed.

Lemma slice_tail {A} (l : list A) : slice l 1 (len l) = tl l.
Proof.
  unfold slice, adjust_index. pose proof (len_nonneg l) as H.
  destruct (Z.ltb_spec 1 0); [lia|]. destruct (Z.ltb_spec (len l) 0); [lia|].
  rewrite Z.min_id. destruct l as [|x l]; [reflexivity|].
  unfold len in *. change (List.length (x :: l)) with (S (List.length l)) in *.
  replace (Z.to_nat (Z.min 1 _)) with 1%nat by lia. cbn [skipn tl].
  apply firstn_all2. lia.
Qed.

(** X18. [lire_fichier_csv] gives one row per line, the first line left out
    when the header is skipped. A row is never empty: it has one field
    more than its line, stripped, has semicolons; no field holds a
    semicolon; and the fields joined by semicolons are the stripped line.
    The load passes a row over unless its line has 8 semicolons at
    least. *)
Theorem lire_fichier_csv_rows (lines : list string) :
  lire_fichier_csv lines true = tl (lire_fichier_csv lines false) /\
  len (lire_fichier_csv lines false) = len lines /\
  Forall2 (fun line row =>
             row <> [] /\
             len row = 1 + count_char ";" (strip line) /\
             Forall (fun field => contains_char ";" field = false) row /\
             join ";" row = strip line /\
             (count_char ";" (strip line) < 8 -> row_values row = None))
          lines (lire_fichier_csv lines false).
Proof.
  unfold lire_fichier_csv. split; [apply slice_tail|].
  split; [apply len_map|].
  induction lines as [|line lines IH]; cbn [map]; constructor; [|exact IH].
  split; [apply split_not_empty|]. split; [apply split_length|].
  split; [apply split_fields|]. split; [apply join_split|].
  intros H. unfold row_values. rewrite split_length.
  destruct (Z.gtb_spec (1 + count_char ";" (strip line)) 8); [lia | reflexivity].
Qed.

Example lire_fichier_csv_example :
  lire_fichier_csv
    [("Num_Acc;grav;an" ++ String (ascii_of_nat 10) "")%string;
     ("  1;2;3 " ++ String (ascii_of_nat 10) "")%string;
     ""] true
  = [["1"; "2"; "3"]; [""]].
Proof. reflexivity. Qed.

(** ** Statistics and the order of the store *)

Lemma sum_permutation (l1 l2 : list Z) : Permutation l1 l2 -> sum l1 = sum l2.
Proof.
  induction 1 as [|x l1 l2 _ IH|x y l|l1 l2 l3 _ IH1 _ IH2].
  - reflexivity.
  - rewrite !sum_cons. lia.
  - rewrite !sum_cons. lia.
  - congruence.
Qed.

(** X19. [get_stats] looks at the years and the severities only, and not
    at their order: two stores whose accidents are the same up to their
    order and their ids, whatever their counters and models, have the same
    statistics. *)
Theorem get_stats_permutation {R1 R2 : Type}
  (self1 : AccidentManager R1) (self2 : AccidentManager R2) :
  Permutation (map (fun a => (annee a, gravite a)) (accidents self1))
              (map (fun a => (annee a, gravite a)) (accidents self2)) ->
  get_stats self1 = get_stats self2.
Proof.
  intros P.
  assert (Py : Permutation (map annee (accidents self1)) (map annee (accidents self2))).
  { apply (Permutation_map fst) in P. now rewrite !map_map in P. }
  assert (Ps : Permutation (map gravite (accidents self1))
                           (map gravite (accidents self2))).
  { apply (Permutation_map snd) in P. now rewrite !map_map in P. }
  pose proof (Permutation_length P) as Hlen. rewrite !length_map in Hlen.
  destruct (accidents self1) as [|a1 l1] eqn:E1, (accidents self2) as [|a2 l2] eqn:E2;
    try discriminate.
  - unfold get_stats. now rewrite E1, E2.
  - rewrite !get_stats_nonempty by congruence. rewrite E1, E2.
    unfold rounded_mean, len.
    rewrite !length_map, Hlen, (sum_permutation _ _ Py), (sum_permutation _ _ Ps).
    reflexivity.
Qed.

Lemma get_stats_permutation_witness :
  get_stats two_accidents
  = get_stats {| accidents := [ {| id := 7; annee := 2021; gravite := 5 |};
                                {| id := 3; annee := 2020; gravite := 1 |} ];
                 id_counter := 1;
                 model := Some (10, -20190) |}.
Proof.
  apply (get_stats_permutation two_accidents). cbn. apply perm_swap.
Defined.
